(** * Collision-Free-Robot: the autonomous controller [robot_controller.py]

    A shallow embedding of the controller and the properties of its
    perception-to-action loop.

    Modelling conventions
    - A Python number is an [int] (an integer of any size) or a [float] (a
      binary64 number, with its rounding, infinities and NaN); arithmetic on
      them is Python's, [OverflowError] included.  Addition and subtraction
      of floats are correctly rounded.  [x ** y] on floats is CPython's
      [float_pow]: its special cases, and else the C library's [pow], whose
      last bit is the library's own (glibc's [pow] is not always the
      correctly rounded value); [pow] is a parameter of the development.
    - The fraction of green pixels, a quotient of two pixel counts, is
      computed in exact rationals [Q].
    - An exception is a value: fallible code returns [result].
    - The library calls the controller makes on image bytes
      ([base64.b64decode], [cv2.imdecode], [cv2.cvtColor]) are parameters of
      the development as well; everything the controller itself computes is
      defined here.
    - The simulator side is a [world]: a clock and the messages that will
      arrive on the WebSocket, each with its arrival time.  What the
      controller does is the list of [event]s it emits (prints, HTTP posts,
      sleeps).  An HTTP post is modelled as issued and answered at once. *)

From Stdlib Require Import List String Ascii Bool Arith ZArith Lia.
From Stdlib Require Import Permutation.
From Stdlib Require Import QArith Qpower Qminmax Lqa.
From Stdlib Require Import Reals Qreals Lra.
From Stdlib Require Import SpecFloat.
From Stdlib Require Import DecimalString.
Import ListNotations.

Local Open Scope string_scope.
Local Open Scope list_scope.

(** ** Python values and exceptions *)

(** Binary64: 53 bits of precision, exponents below 1024. *)
Definition float : Type := spec_float.
Definition b64_add : float -> float -> float := SFadd 53 1024.
Definition b64_sub : float -> float -> float := SFsub 53 1024.
Definition b64_mul : float -> float -> float := SFmul 53 1024.
Definition b64_sqrt : float -> float := SFsqrt 53 1024.
Definition b64_ltb : float -> float -> bool := SFltb.
Definition b64_eqb : float -> float -> bool := SFeqb.
Definition b64_abs : float -> float := SFabs.
Definition b64_pred : float -> float := SFpred 53 1024.
Definition b64_succ : float -> float := SFsucc 53 1024.

(** The float nearest to an integer (ties to even); an infinity when the
    integer is beyond the range. *)
Definition b64_of_Z (n : Z) : float := binary_normalize 53 1024 n 0 false.

Definition b64_one : float := b64_of_Z 1.

(** A float is finite. *)
Definition is_finite (f : float) : bool :=
  match f with
  | S754_zero _ | S754_finite _ _ _ => true
  | _ => false
  end.

(** A float is an infinity. *)
Definition is_infinite (f : float) : bool :=
  match f with
  | S754_infinity _ => true
  | _ => false
  end.

(** A finite float below zero. *)
Definition is_negative (f : float) : bool :=
  match f with
  | S754_finite true _ _ => true
  | _ => false
  end.

(** A float that is not negative: NaN, or a zero, a finite number or an
    infinity with the sign bit clear. *)
Definition unsigned (f : float) : Prop :=
  match f with
  | S754_nan => True
  | S754_zero s | S754_infinity s | S754_finite s _ _ => s = false
  end.

(** The same float, bit for bit. *)
Definition float_eqb (a b : float) : bool :=
  match a, b with
  | S754_nan, S754_nan => true
  | S754_zero s, S754_zero t | S754_infinity s, S754_infinity t => Bool.eqb s t
  | S754_finite s m e, S754_finite t n k => Bool.eqb s t && Pos.eqb m n && Z.eqb e k
  | _, _ => false
  end.

(** The rational number a finite float stands for. *)
Definition b64_Q (f : float) : Q :=
  match f with
  | S754_finite s m e =>
      let v := (inject_Z (Zpos m) * Qpower 2 e)%Q in
      if s then (- v)%Q else v
  | _ => 0%Q
  end.

(** The real number a finite float stands for. *)
Definition b64_value (f : float) : R :=
  match f with
  | S754_finite s m e =>
      let v := (IZR (Zpos m) * (if (0 <=? e)%Z then IZR (2 ^ e) else / IZR (2 ^ (- e))))%R in
      if s then (- v)%R else v
  | _ => 0%R
  end.

(** A Python number. *)
Inductive pynum : Type :=
| PyInt (n : Z)
| PyFloat (f : float).

(** The value [json.loads] builds.  An object is its list of items; a key is
    looked up from the front. *)
#[warnings="-register-all"]
Inductive json : Type :=
| JNull
| JBool (b : bool)
| JNum (n : pynum)
| JStr (s : string)
| JArr (items : list json)
| JObj (fields : list (string * json)).

(** The exceptions the controller can meet.  All of them are subclasses of
    Python's [Exception].  The text of a [cv2.error] is abridged to its
    assertion: the real one also carries the OpenCV version and the source
    location, which vary with the installation. *)
Inductive exn : Type :=
| TimeoutError                                (* asyncio.TimeoutError *)
| ConnectionClosed                            (* websockets: recv on a closed link *)
| JSONDecodeError (msg : string)
| AttributeError (msg : string)
| KeyError (msg : string)
| TypeError (msg : string)
| ValueError (msg : string)
| OverflowError (msg : string)
| LibraryError (cls : string) (msg : string). (* binascii.Error, cv2.error, ... *)

(** [str(e)], what an f-string prints for the exception. *)
Definition exn_str (e : exn) : string :=
  match e with
  | TimeoutError => ""
  | ConnectionClosed => "no close frame received or sent"
  | KeyError key => "'" ++ key ++ "'"
  | JSONDecodeError m | AttributeError m
  | TypeError m | ValueError m | OverflowError m | LibraryError _ m => m
  end.

(** [type(v).__name__]. *)
Definition py_type_name (v : json) : string :=
  match v with
  | JNull => "NoneType"
  | JBool _ => "bool"
  | JNum (PyInt _) => "int"
  | JNum (PyFloat _) => "float"
  | JStr _ => "str"
  | JArr _ => "list"
  | JObj _ => "dict"
  end.

(** The message of the [AttributeError] for a missing method. *)
Definition no_attribute (v : json) (name : string) : exn :=
  AttributeError ("'" ++ py_type_name v ++ "' object has no attribute '" ++ name ++ "'").

Inductive result (A : Type) : Type :=
| Ok (a : A)
| Raise (e : exn).
Arguments Ok {A} a.
Arguments Raise {A} e.

Definition rbind {A B} (r : result A) (k : A -> result B) : result B :=
  match r with
  | Ok a => k a
  | Raise e => Raise e
  end.

Declare Scope result_scope.
Delimit Scope result_scope with result.
Notation "x <- c ;; k" := (rbind c (fun x => k))
  (at level 61, c at next level, right associativity) : result_scope.

(** [d.get(key)] on a dict: the value, or [None]. *)
Fixpoint dict_get (fields : list (string * json)) (key : string) : option json :=
  match fields with
  | [] => None
  | (k, v) :: rest => if String.eqb k key then Some v else dict_get rest key
  end.

(** [data.get(key)]: only a dict has the method. *)
Definition py_get (data : json) (key : string) : result (option json) :=
  match data with
  | JObj fields => Ok (dict_get fields key)
  | _ => Raise (no_attribute data "get")
  end.

(** [obj[key]] with a string key. *)
Definition py_getitem (obj : json) (key : string) : result json :=
  match obj with
  | JObj fields =>
      match dict_get fields key with
      | Some v => Ok v
      | None => Raise (KeyError key)
      end
  | JArr _ => Raise (TypeError "list indices must be integers or slices, not str")
  | JStr _ => Raise (TypeError "string indices must be integers, not 'str'")
  | _ => Raise (TypeError ("'" ++ py_type_name obj ++ "' object is not subscriptable"))
  end.

(** [float(n)] for an int, as arithmetic mixing the two types does it. *)
Definition float_of_int (n : Z) : result float :=
  match b64_of_Z n with
  | S754_infinity _ => Raise (OverflowError "int too large to convert to float")
  | f => Ok f
  end.

(** [v - c] for an int constant [c]: ints stay exact, bools count as 0 and
    1, a float takes [c] as a float, anything else is a [TypeError]. *)
Definition py_sub_int (v : json) (c : Z) : result pynum :=
  match v with
  | JNum (PyInt n) => Ok (PyInt (n - c))
  | JBool b => Ok (PyInt ((if b then 1 else 0) - c))
  | JNum (PyFloat f) => (fc <- float_of_int c ;; Ok (PyFloat (b64_sub f fc)))%result
  | _ => Raise (TypeError ("unsupported operand type(s) for -: '" ++
                           py_type_name v ++ "' and 'int'"))
  end.

(** [a + b]: exact on two ints, in binary64 as soon as one is a float. *)
Definition py_add (a b : pynum) : result pynum :=
  match a, b with
  | PyInt m, PyInt n => Ok (PyInt (m + n))
  | PyFloat f, PyFloat g => Ok (PyFloat (b64_add f g))
  | PyInt m, PyFloat g => (f <- float_of_int m ;; Ok (PyFloat (b64_add f g)))%result
  | PyFloat f, PyInt n => (g <- float_of_int n ;; Ok (PyFloat (b64_add f g)))%result
  end.

(** [a < c] for an int constant [c] that is also a float (as 5 is). *)
Definition py_lt_int (a : pynum) (c : Z) : bool :=
  match a with
  | PyInt n => (n <? c)%Z
  | PyFloat f => b64_ltb f (b64_of_Z c)
  end.

(** [v == s] for a string literal [s]. *)
Definition py_eq_str (v : option json) (s : string) : bool :=
  match v with
  | Some (JStr t) => String.eqb t s
  | _ => false
  end.

(** Strict comparison on rationals, as a boolean. *)
Definition Qltb (a b : Q) : bool := negb (Qle_bool b a).

(** ** Configuration *)

Record Position : Type := { pos_x : Z; pos_z : Z }.

Definition FLASK_URL : string := "http://localhost:5000".
Definition GOAL_POSITION : Position := {| pos_x := -35; pos_z := -35 |}.
Definition GOAL_THRESHOLD : Z := 5.

(** [GOAL_POSITION] as the dict the source posts. *)
Definition position_json (p : Position) : json :=
  JObj [("x", JNum (PyInt (pos_x p))); ("z", JNum (PyInt (pos_z p)))].

(** The square of the distance from an integer position to the goal. *)
Definition squared_distance (x z : Z) : Z :=
  ((x - -35) * (x - -35) + (z - -35) * (z - -35))%Z.

(** The integers from [lo] up, [n] of them. *)
Fixpoint Z_range (lo : Z) (n : nat) : list Z :=
  match n with
  | O => []
  | S k => lo :: Z_range (lo + 1) k
  end.

(** A position as the simulator reports it. *)
Definition position_at (x z : pynum) : json := JObj [("x", JNum x); ("z", JNum z)].

(** ** Images *)

(** One pixel of an 8-bit three-channel array: B, G, R after decoding and
    H, S, V after the colour conversion. *)
Record pixel : Type := { ch0 : Z; ch1 : Z; ch2 : Z }.

(** A numpy array of shape [(shape0, shape1, 3)] with its elements in row
    order. *)
Record image : Type := { shape0 : nat; shape1 : nat; pixels : list pixel }.

Definition well_shaped (img : image) : Prop :=
  List.length (pixels img) = (shape0 img * shape1 img)%nat.

Definition uint8 (v : Z) : Prop := (0 <= v <= 255)%Z.
Definition uint8_pixel (p : pixel) : Prop :=
  uint8 (ch0 p) /\ uint8 (ch1 p) /\ uint8 (ch2 p).

Definition lower_green : pixel := {| ch0 := 35; ch1 := 50; ch2 := 50 |}.
Definition upper_green : pixel := {| ch0 := 85; ch1 := 255; ch2 := 255 |}.

(** [cv2.inRange] on one pixel: 255 when every channel lies between the
    bounds, both included, else 0. *)
Definition inRange_pixel (lo hi p : pixel) : Z :=
  if ((ch0 lo <=? ch0 p) && (ch0 p <=? ch0 hi) &&
      (ch1 lo <=? ch1 p) && (ch1 p <=? ch1 hi) &&
      (ch2 lo <=? ch2 p) && (ch2 p <=? ch2 hi))%Z%bool
  then 255%Z else 0%Z.

(** The mask of an array: one entry per pixel. *)
Definition inRange_mask (hsv : image) (lo hi : pixel) : list Z :=
  map (inRange_pixel lo hi) (pixels hsv).

(** [cv2.inRange(hsv, lower, upper)]: the mask; an array without elements
    is rejected. *)
Definition inRange (hsv : image) (lo hi : pixel) : result (list Z) :=
  match pixels hsv with
  | [] => Raise (LibraryError "cv2.error"
                   "(-215:Assertion failed) ! _src.empty() in function 'inRange'")
  | _ => Ok (inRange_mask hsv lo hi)
  end.

(** [np.sum(mask > 0)]. *)
Definition count_positive (mask : list Z) : nat :=
  List.length (filter (fun m => (0 <? m)%Z) mask).

(** A numpy float64 scalar: a finite value, an infinity or NaN. *)
Inductive npfloat : Type :=
| NpFinite (q : Q)
| NpInf
| NpNaN.

(** [count / total] with a numpy integer on the left: a zero divisor gives
    a warning and [inf] or [nan], never an exception. *)
Definition np_true_divide (count total : nat) : npfloat :=
  match total with
  | O => match count with O => NpNaN | S _ => NpInf end
  | S _ => NpFinite (inject_Z (Z.of_nat count) / inject_Z (Z.of_nat total))
  end.

(** [v * c] for a positive constant [c]. *)
Definition np_scale (v : npfloat) (c : Q) : npfloat :=
  match v with
  | NpFinite q => NpFinite (q * c)
  | NpInf => NpInf
  | NpNaN => NpNaN
  end.

(** [v > c]; every comparison with NaN is false. *)
Definition np_gt (v : npfloat) (c : Q) : bool :=
  match v with
  | NpFinite q => Qltb c q
  | NpInf => true
  | NpNaN => false
  end.

(** [s.split(sep, 1)] when [sep] occurs: the text before the first [sep] and
    the text after it.  [None] when it does not occur (the list then has one
    element). *)
Fixpoint split_once (sep : ascii) (s : string) : option (string * string) :=
  match s with
  | EmptyString => None
  | String c rest =>
      if Ascii.eqb c sep then Some (EmptyString, rest)
      else match split_once sep rest with
           | Some (header, encoded) => Some (String c header, encoded)
           | None => None
           end
  end.

(** ** What the controller emits *)

Inductive event : Type :=
| Print (line : string)
| Post (url : string) (body : option json)   (* requests.post(url, json=body) *)
| Sleep (seconds : Q).                       (* await asyncio.sleep(seconds) *)

(** The commands of the simulator's HTTP interface, as the posts that carry
    them. *)
Definition TriggerCapture : event := Post (FLASK_URL ++ "/capture") None.
Definition SetGoal (p : Position) : event :=
  Post (FLASK_URL ++ "/goal") (Some (position_json p)).
Definition MoveAbsolute (p : Position) : event :=
  Post (FLASK_URL ++ "/move") (Some (position_json p)).
Definition MoveRelative (turn distance : Z) : event :=
  Post (FLASK_URL ++ "/move_rel")
       (Some (JObj [("turn", JNum (PyInt turn)); ("distance", JNum (PyInt distance))])).
Definition Stop : event := Post (FLASK_URL ++ "/stop") None.

Definition posts_to (path : string) (e : event) : bool :=
  match e with
  | Post url _ => String.eqb url (FLASK_URL ++ path)
  | _ => false
  end.

Definition is_post (e : event) : bool :=
  match e with Post _ _ => true | _ => false end.
Definition is_stop : event -> bool := posts_to "/stop".
Definition is_set_goal : event -> bool := posts_to "/goal".
Definition is_capture : event -> bool := posts_to "/capture".
Definition is_move (e : event) : bool :=
  posts_to "/move_rel" e || posts_to "/move" e.

Definition count (p : event -> bool) (evs : list event) : nat :=
  List.length (filter p evs).

(** ** The frame classifier (lines 19-52) *)

(** Lines 41-49, once [img] and [hsv] are there. *)
Definition green_pixel_count (hsv : image) : nat :=
  count_positive (inRange_mask hsv lower_green upper_green).

Definition total_pixels (img : image) : nat := (shape0 img * shape1 img)%nat.

Definition green_percentage (img hsv : image) : npfloat :=
  np_scale (np_true_divide (green_pixel_count hsv) (total_pixels img)) 100.

Definition verdict (img hsv : image) : bool :=
  np_gt (green_percentage img hsv) 0.1.

(** The fraction of pixels the mask selects, over the pixel count. *)
Definition green_fraction (img hsv : image) : Q :=
  inject_Z (Z.of_nat (green_pixel_count hsv)) /
  inject_Z (Z.of_nat (total_pixels img)).

(** The library calls the controller relies on: those made on the image
    payload, and the C library's [pow] that [**] on floats ends in, at the
    two exponents of line 94. *)
Class Libraries : Type := {
  (* base64.b64decode(encoded) *)
  b64decode : string -> result (list Byte.byte);
  (* cv2.imdecode(np.frombuffer(data, np.uint8), cv2.IMREAD_COLOR): an array,
     None when the bytes are no image, or an exception *)
  imdecode : list Byte.byte -> result (option image);
  (* cv2.cvtColor(img, cv2.COLOR_BGR2HSV) on an array *)
  cvtColor_BGR2HSV : image -> result image;
  (* pow(x, 2.0) and pow(x, 0.5) of the C library *)
  pow_two : float -> float;
  pow_half : float -> float
}.

Section Classifier.

Context {lib : Libraries}.

(** The body of the [try] block. *)
Definition analyze_image_try (image_data_url : json) : result bool :=
  (url <- match image_data_url with
          | JStr s => Ok s
          | _ => Raise (no_attribute image_data_url "split")
          end ;;
   parts <- match split_once "," url with
            | Some p => Ok p
            | None => Raise (ValueError "not enough values to unpack (expected 2, got 1)")
            end ;;
   data <- b64decode (snd parts) ;;
   decoded <- imdecode data ;;
   match decoded with
   | None =>
       (* cv2.cvtColor(None, ...) *)
       Raise (LibraryError "cv2.error"
                "(-215:Assertion failed) !_src.empty() in function 'cvtColor'")
   | Some img =>
       hsv <- cvtColor_BGR2HSV img ;;
       mask <- inRange hsv lower_green upper_green ;;
       Ok (np_gt (np_scale (np_true_divide (count_positive mask) (total_pixels img))
                           100)
                 0.1)
   end)%result.

(** [analyze_image]: what it prints and what it returns. *)
Definition analyze_image (image_data_url : json) : list event * bool :=
  match analyze_image_try image_data_url with
  | Ok b => ([], b)
  | Raise e => ([Print ("Error analyzing image: " ++ exn_str e)], false)
  end.

(** The array and its HSV conversion that a data URL decodes to. *)
Definition decodes_to (url : string) (img hsv : image) : Prop :=
  exists header encoded data,
    split_once "," url = Some (header, encoded) /\
    b64decode encoded = Ok data /\
    imdecode data = Ok (Some img) /\
    cvtColor_BGR2HSV img = Ok hsv.

(** A payload that cannot be decoded: no comma to strip the header at, a
    base64 error, or bytes that the image decoder rejects (by an exception
    or by returning no image). *)
Definition undecodable (url : string) : Prop :=
  match split_once "," url with
  | None => True
  | Some (_, encoded) =>
      match b64decode encoded with
      | Raise _ => True
      | Ok data =>
          match imdecode data with
          | Raise _ | Ok None => True
          | Ok (Some _) => False
          end
      end
  end.

(** An image entry that the [try] block cannot classify: a value that is
    no string, or a payload that cannot be decoded. *)
Definition unclassifiable (image_data : json) : Prop :=
  match image_data with
  | JStr s => undecodable s
  | _ => True
  end.

End Classifier.

(** ** Distance to the goal (line 94) *)

Section Distance.

Context {lib : Libraries}.

(** The float [f ** 2] is, as CPython's [float_pow] computes it: NaN stays,
    an infinity gives infinity, a zero gives zero; else the base is
    replaced by its absolute value, 1.0 gives 1.0, and any other goes to
    the C library's [pow]. *)
Definition square_value (f : float) : float :=
  match f with
  | S754_nan => S754_nan
  | S754_infinity _ => S754_infinity false
  | S754_zero _ => S754_zero false
  | S754_finite _ _ _ =>
      if b64_eqb (b64_abs f) b64_one then b64_one else pow_two (b64_abs f)
  end.

(** A finite float whose square comes back as an infinity. *)
Definition square_overflows (f : float) : bool :=
  is_finite f && is_infinite (square_value f).

(** [f ** 2] on a float: an infinite result for a finite base is an
    [OverflowError]. *)
Definition float_square (f : float) : result float :=
  if square_overflows f
  then Raise (OverflowError "(34, 'Numerical result out of range')")
  else Ok (square_value f).

(** The float [f ** 0.5] is, for a base that is not negative: NaN stays,
    an infinity gives infinity, a zero gives zero, 1.0 gives 1.0, and any
    other goes to the C library's [pow].  (A negative base has no float
    value: Python answers with a complex number.) *)
Definition root_value (f : float) : float :=
  match f with
  | S754_nan => S754_nan
  | S754_infinity _ => S754_infinity false
  | S754_zero _ => S754_zero false
  | S754_finite true _ _ => S754_nan
  | S754_finite false _ _ =>
      if b64_eqb f b64_one then b64_one else pow_half f
  end.

(** A finite float whose root comes back as an infinity. *)
Definition root_overflows (f : float) : bool :=
  is_finite f && is_infinite (root_value f).

(** [f ** 0.5] on a float.  A negative base gives a complex number, which
    the comparison that follows in line 95 rejects with this [TypeError]. *)
Definition float_root (f : float) : result float :=
  if is_negative f
  then Raise (TypeError "'<' not supported between instances of 'complex' and 'int'")
  else if root_overflows f
       then Raise (OverflowError "(34, 'Numerical result out of range')")
       else Ok (root_value f).

(** [a ** 2]. *)
Definition py_square (a : pynum) : result pynum :=
  match a with
  | PyInt n => Ok (PyInt (n * n))
  | PyFloat f => (r <- float_square f ;; Ok (PyFloat r))%result
  end.

(** [a ** 0.5]: always a float. *)
Definition py_root (a : pynum) : result pynum :=
  match a with
  | PyInt n => (f <- float_of_int n ;; r <- float_root f ;; Ok (PyFloat r))%result
  | PyFloat f => (r <- float_root f ;; Ok (PyFloat r))%result
  end.

(** Line 94, in the order Python evaluates it:
    [((robot_pos["x"] - GOAL["x"])**2 + (robot_pos["z"] - GOAL["z"])**2)**0.5]. *)
Definition distance_to_goal (robot_pos : json) : result pynum :=
  (xv <- py_getitem robot_pos "x" ;;
   dx <- py_sub_int xv (pos_x GOAL_POSITION) ;;
   dx2 <- py_square dx ;;
   zv <- py_getitem robot_pos "z" ;;
   dz <- py_sub_int zv (pos_z GOAL_POSITION) ;;
   dz2 <- py_square dz ;;
   radicand <- py_add dx2 dz2 ;;
   py_root radicand)%result.

(** The sum of the squared coordinate differences between the float
    position [(x, z)] and the goal [(-35, -35)], in binary64. *)
Definition b64_radicand (x z : float) : float :=
  b64_add (square_value (b64_sub x (b64_of_Z (-35))))
          (square_value (b64_sub z (b64_of_Z (-35)))).

(** The planar Euclidean distance from the float position [(x, z)] to the
    goal, in binary64. *)
Definition b64_distance (x z : float) : float := root_value (b64_radicand x z).

(** Line 94 raises on the float position [(x, z)]: a square or the root is
    beyond the range, or the radicand came out negative. *)
Definition float_distance_raises (x z : float) : bool :=
  square_overflows (b64_sub x (b64_of_Z (-35))) ||
  square_overflows (b64_sub z (b64_of_Z (-35))) ||
  is_negative (b64_radicand x z) ||
  root_overflows (b64_radicand x z).

(** The distance line 94 computes from an integer radicand. *)
Definition int_root (radicand : Z) : result float :=
  (f <- float_of_int radicand ;; float_root f)%result.

(** The floats next to the correctly rounded value [c], and [c] itself. *)
Definition near (c r : float) : bool :=
  float_eqb r c || float_eqb r (b64_pred c) || float_eqb r (b64_succ c).

(** [r] is accurate to the last bit as the square of [f]: the exact square
    when that is a float, else the correctly rounded square or a float
    next to it. *)
Definition square_accurate (f r : float) : bool :=
  let c := b64_mul f f in
  if is_finite c && Qeq_bool (b64_Q c) (b64_Q f * b64_Q f)
  then float_eqb r c
  else near c r.

(** [r] is accurate to the last bit as the square root of [f]. *)
Definition root_accurate (f r : float) : bool :=
  let c := b64_sqrt f in
  if Qeq_bool (b64_Q c * b64_Q c) (b64_Q f)
  then float_eqb r c
  else near c r.

(** The C library's [pow] is accurate to the last bit at the exponents 2
    and 0.5, on the finite positive numbers it is called with. *)
Definition last_bit_accurate : Prop :=
  forall f,
    is_finite f = true -> is_negative f = false ->
    square_accurate f (pow_two f) = true /\ root_accurate f (pow_half f) = true.

(** Every value that is accurate to the last bit as the root of the
    integer [radicand] passes the test [P]. *)
Definition roots_pass (P : float -> bool) (radicand : Z) : bool :=
  let f := b64_of_Z radicand in
  is_finite f && negb (is_negative f) &&
  match f with
  | S754_finite _ _ _ =>
      if b64_eqb f b64_one then P b64_one
      else if Qeq_bool (b64_Q (b64_sqrt f) * b64_Q (b64_sqrt f)) (b64_Q f)
           then P (b64_sqrt f)
           else P (b64_sqrt f) && P (b64_pred (b64_sqrt f)) && P (b64_succ (b64_sqrt f))
  | _ => P (S754_zero false)
  end.

(** A finite float that is read as below the threshold, and one that is
    read as not below it. *)
Definition below_threshold (r : float) : bool :=
  negb (is_infinite r) && b64_ltb r (b64_of_Z GOAL_THRESHOLD).

Definition not_below_threshold (r : float) : bool :=
  negb (is_infinite r) && negb (b64_ltb r (b64_of_Z GOAL_THRESHOLD)).

End Distance.

(** ** The simulator as seen through the WebSocket *)

(** What one [ws.recv()] can bring. *)
Inductive ws_item : Type :=
| Message (data : json)     (* a text frame; [json.loads] gives [data] *)
| Garbled (text : string)   (* a text frame [json.loads] rejects *)
| Closed.                   (* the connection is gone: [recv] raises *)

(** The clock and the messages still to be received, each with the time at
    which it arrives (in arrival order). *)
Record world : Type := { now : Q; inbox : list (Q * ws_item) }.

(** The [while True] of [capture_image_from_server] (lines 62-66): each turn
    is one [asyncio.wait_for(ws.recv(), timeout=5.0)], which delivers the
    next message if it arrives less than 5 after the call, and raises
    [TimeoutError] 5 after the call otherwise.  Returns the outcome, the
    time at which the loop is left and the messages not yet received. *)
Fixpoint recv_until_response (pending : list (Q * ws_item)) (clock : Q)
  : result json * Q * list (Q * ws_item) :=
  match pending with
  | [] => (Raise TimeoutError, (clock + 5)%Q, [])
  | (arrival, item) :: rest =>
      if Qltb arrival (clock + 5) then
        let clock' := Qmax clock arrival in
        match item with
        | Closed => (Raise ConnectionClosed, clock', rest)
        | Garbled _ =>
            (Raise (JSONDecodeError "Expecting value: line 1 column 1 (char 0)"),
             clock', rest)
        | Message data =>
            match py_get data "type" with
            | Raise e => (Raise e, clock', rest)
            | Ok ty =>
                if py_eq_str ty "capture_image_response"
                then (Ok data, clock', rest)
                else recv_until_response rest clock'
            end
        end
      else (Raise TimeoutError, (clock + 5)%Q, pending)
  end.

(** A message tagged as a capture image response. *)
Definition is_capture_response (item : ws_item) : bool :=
  match item with
  | Message data =>
      match py_get data "type" with
      | Ok ty => py_eq_str ty "capture_image_response"
      | Raise _ => false
      end
  | _ => false
  end.

(** A well-formed message of any other type. *)
Definition is_other_message (item : ws_item) : bool :=
  match item with
  | Message data =>
      match py_get data "type" with
      | Ok ty => negb (py_eq_str ty "capture_image_response")
      | Raise _ => false
      end
  | _ => false
  end.

(** ** The controller's effects: events out, the world threaded through *)

Definition io (A : Type) : Type := world -> list event * world * result A.

Definition io_ret {A} (a : A) : io A := fun w => ([], w, Ok a).

Definition io_bind {A B} (c : io A) (k : A -> io B) : io B :=
  fun w =>
    match c w with
    | (evs, w1, Ok a) =>
        match k a w1 with
        | (evs', w2, r) => (evs ++ evs', w2, r)
        end
    | (evs, w1, Raise e) => (evs, w1, Raise e)
    end.

Declare Scope io_scope.
Delimit Scope io_scope with io.
Notation "x <- c ;; k" := (io_bind c (fun x => k))
  (at level 61, c at next level, right associativity) : io_scope.
Notation "c ;; k" := (io_bind c (fun _ => k))
  (at level 61, right associativity) : io_scope.

Definition print (line : string) : io unit := fun w => ([Print line], w, Ok tt).

Definition post (url : string) (body : option json) : io unit :=
  fun w => ([Post url body], w, Ok tt).

(** The world [seconds] later. *)
Definition advance (w : world) (seconds : Q) : world :=
  {| now := (now w + seconds)%Q; inbox := inbox w |}.

Definition sleep (seconds : Q) : io unit :=
  fun w => ([Sleep seconds], advance w seconds, Ok tt).

Definition lift {A} (r : result A) : io A := fun w => ([], w, r).

Definition emit {A} (out : list event * A) : io A :=
  fun w => (fst out, w, Ok (snd out)).

(** [try: c  except asyncio.TimeoutError: h]. *)
Definition except_timeout {A} (c h : io A) : io A :=
  fun w =>
    match c w with
    | (evs, w1, Raise TimeoutError) =>
        match h w1 with
        | (evs', w2, r) => (evs ++ evs', w2, r)
        end
    | other => other
    end.

Definition await_response : io json :=
  fun w =>
    match recv_until_response (inbox w) (now w) with
    | (r, clock, pending) => ([], {| now := clock; inbox := pending |}, r)
    end.

(** [capture_image_from_server] (lines 55-69). *)
Definition capture_image_from_server : io (option json) :=
  (post (FLASK_URL ++ "/capture") None ;;
   except_timeout
     (data <- await_response ;; io_ret (Some data))
     (print "Timeout waiting for image response." ;; io_ret None))%io.

(** ** The navigation loop (lines 71-119) *)

Inductive loop_ctl : Type := LoopContinue | LoopBreak.

(** How a run of the loop stands after some number of turns. *)
Inductive run_status : Type :=
| GoalReached      (* the loop was left through [break] *)
| StillRunning.    (* the turns allowed were all taken *)

(** The frame a response carries: the image payload, and the distance to
    the goal that line 94 computes from its position. *)
Definition frame_of {lib : Libraries} (response image_data : json) (distance : pynum) : Prop :=
  py_getitem response "image" = Ok image_data /\
  exists robot_pos,
    py_getitem response "position" = Ok robot_pos /\
    distance_to_goal robot_pos = Ok distance.

(** A response that carries an image and reports the position [(x, z)]. *)
Definition reports (response image_data : json) (x z : pynum) : Prop :=
  py_getitem response "image" = Ok image_data /\
  exists robot_pos,
    py_getitem response "position" = Ok robot_pos /\
    py_getitem robot_pos "x" = Ok (JNum x) /\
    py_getitem robot_pos "z" = Ok (JNum z).

(** What a turn emits when the capture times out. *)
Definition retry_events : list event :=
  [TriggerCapture;
   Print "Timeout waiting for image response.";
   Print "Failed to get image. Retrying...";
   Sleep 1].

(** What a turn emits after the capture when the goal is reached, when an
    obstacle is seen and when the path is clear. *)
Definition goal_reached_events : list event :=
  [Print "🎉 Goal reached! Stopping."; Stop].

Definition obstacle_events : list event :=
  [Print "⚠️ Obstacle detected! Turning and moving to clear...";
   MoveRelative 20 5; Sleep 2; Sleep 1].

Definition clear_events : list event :=
  [Print "✅ Path clear. Moving forward a step...";
   MoveRelative 0 10; Sleep 1; MoveAbsolute GOAL_POSITION; Sleep 1].

(** The commands among the events, in the order they were sent. *)
Definition commands (evs : list event) : list event := filter is_post evs.

(** Nothing arrives during the next [d]: the inbox is empty or its first
    message arrives at [now + d] or later. *)
Definition silent_for (w : world) (d : Q) : Prop :=
  match inbox w with
  | [] => True
  | (arrival, _) :: _ => (now w + d <= arrival)%Q
  end.

(** Every event [c] emits, from any world, satisfies [P]. *)
Definition emits_only {A} (P : event -> Prop) (c : io A) : Prop :=
  forall w, Forall P (fst (fst (c w))).

Section Navigation.

Context {lib : Libraries}.

(** One turn of the [while True] of [main] (lines 82-119). *)
Definition cycle : io loop_ctl :=
  (image_response <- capture_image_from_server ;;
   match image_response with
   | None =>
       print "Failed to get image. Retrying..." ;;
       sleep 1 ;;
       io_ret LoopContinue
   | Some response =>
       image_data <- lift (py_getitem response "image") ;;
       robot_pos <- lift (py_getitem response "position") ;;
       distance <- lift (distance_to_goal robot_pos) ;;
       if py_lt_int distance GOAL_THRESHOLD then
         print "🎉 Goal reached! Stopping." ;;
         post (FLASK_URL ++ "/stop") None ;;
         io_ret LoopBreak
       else
         is_obstacle_ahead <- emit (analyze_image image_data) ;;
         (if is_obstacle_ahead : bool then
            print "⚠️ Obstacle detected! Turning and moving to clear..." ;;
            post (FLASK_URL ++ "/move_rel")
                 (Some (JObj [("turn", JNum (PyInt 20)); ("distance", JNum (PyInt 5))])) ;;
            sleep 2
          else
            print "✅ Path clear. Moving forward a step..." ;;
            post (FLASK_URL ++ "/move_rel")
                 (Some (JObj [("turn", JNum (PyInt 0)); ("distance", JNum (PyInt 10))])) ;;
            sleep 1 ;;
            post (FLASK_URL ++ "/move") (Some (position_json GOAL_POSITION))) ;;
         sleep 1 ;;
         io_ret LoopContinue
   end)%io.

(** The [while True] of [main], for at most [turns] turns. *)
Fixpoint main_loop (turns : nat) : io run_status :=
  match turns with
  | O => io_ret StillRunning
  | S n =>
      (ctl <- cycle ;;
       match ctl with
       | LoopBreak => io_ret GoalReached
       | LoopContinue => main_loop n
       end)%io
  end.

(** [main] (lines 71-119), inside the established connection. *)
Definition main (turns : nat) : io run_status :=
  (print "🤖 Autonomous Robot Controller started." ;;
   print "🎯 Goal set to: {'x': -35, 'z': -35}" ;;
   post (FLASK_URL ++ "/goal") (Some (position_json GOAL_POSITION)) ;;
   print "Goal position sent to simulator." ;;
   main_loop turns)%io.

End Navigation.

(** The pixels the mask selects: [mask > 0]. *)
Definition selected (p : pixel) : bool :=
  (0 <? inRange_pixel lower_green upper_green p)%Z.

(** ** Reading the controller's behaviour *)

(** The exceptions lines 90-94 can raise. *)
Definition frame_error (e : exn) : Prop :=
  match e with
  | KeyError _ | TypeError _ | OverflowError _ => True
  | _ => False
  end.

(** Lines 90-94 as one step: the image payload and the distance of a
    response, or the first exception met on the way. *)
Definition read_frame {lib : Libraries} (response : json) : result (json * pynum) :=
  (image_data <- py_getitem response "image" ;;
   robot_pos <- py_getitem response "position" ;;
   distance <- distance_to_goal robot_pos ;;
   Ok (image_data, distance))%result.

(** The exception a message raises inside the receive loop (lines 63-65),
    if it raises one: a lost connection, text that is no JSON, or JSON that
    is not an object and so has no [get]. *)
Definition recv_failure (item : ws_item) : option exn :=
  match item with
  | Closed => Some ConnectionClosed
  | Garbled _ => Some (JSONDecodeError "Expecting value: line 1 column 1 (char 0)")
  | Message data =>
      match py_get data "type" with
      | Raise e => Some e
      | Ok _ => None
      end
  end.

(** The events the source can emit at all: any print, a sleep of 1 or 2,
    and six commands. *)
Definition expected_event (e : event) : Prop :=
  match e with
  | Print _ => True
  | Sleep t => t = 1%Q \/ t = 2%Q
  | Post _ _ =>
      e = SetGoal GOAL_POSITION \/ e = TriggerCapture \/ e = Stop \/
      e = MoveRelative 20 5 \/ e = MoveRelative 0 10 \/
      e = MoveAbsolute GOAL_POSITION
  end.

(** [c in s]. *)
Fixpoint contains (c : ascii) (s : string) : bool :=
  match s with
  | EmptyString => false
  | String c' rest => Ascii.eqb c' c || contains c rest
  end.

(** A capture response that arrives before [deadline], with a readable
    frame whose computed distance is not below the threshold. *)
Definition far_response {lib : Libraries} (deadline : Q) (m : Q * ws_item) : Prop :=
  (fst m < deadline)%Q /\
  exists response image_data distance,
    snd m = Message response /\
    is_capture_response (Message response) = true /\
    frame_of response image_data distance /\
    py_lt_int distance GOAL_THRESHOLD = false.

(** What a turn that reaches the goal amounts to: it emits the capture
    trigger, the print and one Stop, leaves the loop whatever number of
    turns was still allowed, and sends no Move. *)
Definition stops_there {lib : Libraries} (w w1 : world) : Prop :=
  cycle w = ([TriggerCapture] ++ goal_reached_events, w1, Ok LoopBreak) /\
  (forall n, main_loop (S n) w =
             ([TriggerCapture] ++ goal_reached_events, w1, Ok GoalReached)) /\
  commands ([TriggerCapture] ++ goal_reached_events) = [TriggerCapture; Stop] /\
  count is_stop ([TriggerCapture] ++ goal_reached_events) = 1%nat /\
  count is_move ([TriggerCapture] ++ goal_reached_events) = 0%nat.

(** What a turn that goes on amounts to: it classifies the frame and acts
    on the verdict. *)
Definition acts_on_verdict {lib : Libraries} (w w1 : world) (image_data : json) : Prop :=
  (snd (analyze_image image_data) = true ->
   cycle w = ([TriggerCapture] ++ fst (analyze_image image_data) ++ obstacle_events,
              advance (advance w1 2) 1, Ok LoopContinue) /\
   commands (fst (fst (cycle w))) = [TriggerCapture; MoveRelative 20 5]) /\
  (snd (analyze_image image_data) = false ->
   cycle w = ([TriggerCapture] ++ fst (analyze_image image_data) ++ clear_events,
              advance (advance w1 1) 1, Ok LoopContinue) /\
   commands (fst (fst (cycle w))) =
     [TriggerCapture; MoveRelative 0 10; MoveAbsolute GOAL_POSITION]).

(** ** A concrete environment

    Reference versions of the three library calls, so that the controller
    can be run on concrete frames: base64 decoding as [binascii.a2b_base64]
    does it by default, a decoder for binary PPM images (one of the formats
    [cv2.imdecode] reads) and the 8-bit BGR to HSV conversion as OpenCV
    documents it. *)
Module Sample.

Definition binascii_Error (msg : string) : exn := LibraryError "binascii.Error" msg.
Definition cv2_error (msg : string) : exn := LibraryError "cv2.error" msg.

Definition code (c : ascii) : Z := Z.of_nat (nat_of_ascii c).

Definition byte_of_Z (v : Z) : Byte.byte :=
  match Byte.of_N (Z.to_N (v mod 256)) with
  | Some b => b
  | None => Byte.x00
  end.

Definition Z_of_byte (b : Byte.byte) : Z := Z.of_N (Byte.to_N b).

(** The value of a character of the base64 alphabet. *)
Definition b64_digit (c : ascii) : option Z :=
  let n := code c in
  if ((65 <=? n) && (n <=? 90))%Z then Some (n - 65)%Z
  else if ((97 <=? n) && (n <=? 122))%Z then Some (n - 71)%Z
  else if ((48 <=? n) && (n <=? 57))%Z then Some (n + 4)%Z
  else if (n =? 43)%Z then Some 62%Z
  else if (n =? 47)%Z then Some 63%Z
  else None.

(** The scan of [a2b_base64] without [strict_mode]: characters outside
    the alphabet are skipped, a pad that completes a quad ends the input,
    and data that stops inside a quad is an error. *)
Fixpoint a2b_base64 (s : string) (quad_pos : nat) (leftchar : Z) (pads : nat)
         (out : list Byte.byte) : result (list Byte.byte) :=
  match s with
  | EmptyString =>
      match quad_pos with
      | O => Ok (rev out)
      | S O =>
          Raise (binascii_Error
                   ("Invalid base64-encoded string: number of data characters (" ++
                    NilEmpty.string_of_uint
                      (Nat.to_uint (List.length out / 3 * 4 + 1)) ++
                    ") cannot be 1 more than a multiple of 4"))
      | _ => Raise (binascii_Error "Incorrect padding")
      end
  | String c rest =>
      if Ascii.eqb c "=" then
        if ((2 <=? quad_pos) && (4 <=? quad_pos + S pads))%nat
        then Ok (rev out)
        else a2b_base64 rest quad_pos leftchar (S pads) out
      else
        match b64_digit c with
        | None => a2b_base64 rest quad_pos leftchar pads out
        | Some d =>
            match quad_pos with
            | 0%nat => a2b_base64 rest 1 d 0 out
            | 1%nat =>
                a2b_base64 rest 2 (Z.land d 15) 0
                  (byte_of_Z (Z.lor (Z.shiftl leftchar 2) (Z.shiftr d 4)) :: out)
            | 2%nat =>
                a2b_base64 rest 3 (Z.land d 3) 0
                  (byte_of_Z (Z.lor (Z.shiftl leftchar 4) (Z.shiftr d 2)) :: out)
            | _ =>
                a2b_base64 rest 0 0 0
                  (byte_of_Z (Z.lor (Z.shiftl leftchar 6) d) :: out)
            end
        end
  end.

Fixpoint all_ascii (s : string) : bool :=
  match s with
  | EmptyString => true
  | String c rest => (code c <? 128)%Z && all_ascii rest
  end.

Definition base64_decode (s : string) : result (list Byte.byte) :=
  if all_ascii s then a2b_base64 s 0 0 0 []
  else Raise (ValueError "string argument should contain only ASCII characters").

(** *** Binary PPM *)

Definition is_space (v : Z) : bool :=
  ((v =? 32) || ((9 <=? v) && (v <=? 13)))%Z.
Definition is_digit (v : Z) : bool := ((48 <=? v) && (v <=? 57))%Z.

Fixpoint skip_spaces (bs : list Z) : list Z :=
  match bs with
  | b :: rest => if is_space b then skip_spaces rest else bs
  | [] => []
  end.

(** The decimal number at the front, with what follows it. *)
Fixpoint read_digits (bs : list Z) (acc : Z) (seen : bool) : option (Z * list Z) :=
  match bs with
  | b :: rest =>
      if is_digit b then read_digits rest (10 * acc + (b - 48))%Z true
      else if seen then Some (acc, bs) else None
  | [] => if seen then Some (acc, []) else None
  end.

Definition read_number (bs : list Z) : option (Z * list Z) :=
  read_digits (skip_spaces bs) 0 false.

(** Triples R, G, B to pixels B, G, R. *)
Fixpoint bgr_pixels (bs : list Z) : option (list pixel) :=
  match bs with
  | [] => Some []
  | r :: g :: b :: rest =>
      match bgr_pixels rest with
      | Some ps => Some ({| ch0 := b; ch1 := g; ch2 := r |} :: ps)
      | None => None
      end
  | _ => None
  end.

Definition ppm_image (bs : list Z) : option image :=
  match bs with
  | 80%Z :: 54%Z :: header =>             (* the magic number P6 *)
      match read_number header with
      | Some (width, after_width) =>
          match read_number after_width with
          | Some (height, after_height) =>
              match read_number after_height with
              | Some (255%Z, _ :: raster) =>
                  match bgr_pixels raster with
                  | Some ps =>
                      if ((0 <? width) && (0 <? height) &&
                          (Z.of_nat (List.length ps) =? height * width))%Z
                      then Some {| shape0 := Z.to_nat height;
                                   shape1 := Z.to_nat width;
                                   pixels := ps |}
                      else None
                  | None => None
                  end
              | _ => None
              end
          | None => None
          end
      | None => None
      end
  | _ => None
  end.

Definition ppm_decode (data : list Byte.byte) : result (option image) :=
  match data with
  | [] => Raise (cv2_error "(-215:Assertion failed) !buf.empty() in function 'imdecode_'")
  | _ => Ok (ppm_image (map Z_of_byte data))
  end.

(** *** BGR to HSV, 8 bits per channel *)

(** Division rounded to the nearest integer, for a positive divisor. *)
Definition div_round (a b : Z) : Z := ((2 * a + b) / (2 * b))%Z.

(** V is the largest channel, S is [255 * (V - min) / V], and H is half
    the hue angle in degrees, so that it fits 8 bits (0..179). *)
Definition bgr2hsv (p : pixel) : pixel :=
  let b := ch0 p in
  let g := ch1 p in
  let r := ch2 p in
  let v := Z.max b (Z.max g r) in
  let d := (v - Z.min b (Z.min g r))%Z in
  let s := if (v =? 0)%Z then 0%Z else div_round (255 * d) v in
  let h :=
    if (d =? 0)%Z then 0%Z
    else if (v =? r)%Z then div_round (30 * (g - b)) d
    else if (v =? g)%Z then (60 + div_round (30 * (b - r)) d)%Z
    else (120 + div_round (30 * (r - g)) d)%Z in
  {| ch0 := if (h <? 0)%Z then (h + 180)%Z else h; ch1 := s; ch2 := v |}.

Definition bgr2hsv_image (img : image) : result image :=
  match pixels img with
  | [] => Raise (cv2_error "(-215:Assertion failed) !_src.empty() in function 'cvtColor'")
  | _ => Ok {| shape0 := shape0 img; shape1 := shape1 img;
               pixels := map bgr2hsv (pixels img) |}
  end.

(** [pow] at the exponents 2 and 0.5 as a correctly rounding C library
    computes it.  (The last bit of glibc's [pow] differs from it on some
    inputs.) *)
Definition library : Libraries :=
  {| b64decode := base64_decode;
     imdecode := ppm_decode;
     cvtColor_BGR2HSV := bgr2hsv_image;
     pow_two := fun f => b64_mul f f;
     pow_half := b64_sqrt |}.

(** A decoder that also accepts a PPM image of size 0 x 0, as an array
    without elements. *)
Definition lenient_decode (data : list Byte.byte) : result (option image) :=
  match map Z_of_byte data with
  | [80; 54; 10; 48; 32; 48; 10; 50; 53; 53; 10]%Z =>
      Ok (Some {| shape0 := 0; shape1 := 0; pixels := [] |})
  | _ => ppm_decode data
  end.

Definition lenient_library : Libraries :=
  {| b64decode := base64_decode;
     imdecode := lenient_decode;
     cvtColor_BGR2HSV := bgr2hsv_image;
     pow_two := fun f => b64_mul f f;
     pow_half := b64_sqrt |}.

Definition empty_frame : string := "data:image/x-portable-pixmap;base64,UDYKMCAwCjI1NQo=".

(** *** Frames and messages *)

Definition green_frame : string := "data:image/x-portable-pixmap;base64,UDYKMiAyCjI1NQoA/wAA/wAA/wAA/wA=".
Definition blue_frame : string := "data:image/x-portable-pixmap;base64,UDYKMSAxCjI1NQoAAP8=".
Definition gray_frame : string := "data:image/x-portable-pixmap;base64,UDYKMiAxCjI1NQrIyMjIyMg=".
Definition truncated_frame : string := "data:image/x-portable-pixmap;base64,UDYKMiAyCjI1NQoA/wAA/wAA/w==".

Definition capture_response_at (image_url : string) (x z : pynum) : json :=
  JObj [("type", JStr "capture_image_response");
        ("image", JStr image_url);
        ("position", position_at x z)].

Definition capture_response (image_url : string) (x z : Z) : json :=
  capture_response_at image_url (PyInt x) (PyInt z).

Definition status_message : json :=
  JObj [("type", JStr "status"); ("battery", JNum (PyInt 87))].

(** The arrays [green_frame] decodes to. *)
Definition green_bgr : image :=
  {| shape0 := 2; shape1 := 2;
     pixels := repeat {| ch0 := 0; ch1 := 255; ch2 := 0 |} 4 |}.

Definition green_hsv : image :=
  {| shape0 := 2; shape1 := 2;
     pixels := repeat {| ch0 := 60; ch1 := 255; ch2 := 255 |} 4 |}.

(** The arrays [blue_frame] decodes to. *)
Definition blue_bgr : image :=
  {| shape0 := 1; shape1 := 1; pixels := [{| ch0 := 255; ch1 := 0; ch2 := 0 |}] |}.

Definition blue_hsv : image :=
  {| shape0 := 1; shape1 := 1; pixels := [{| ch0 := 120; ch1 := 255; ch2 := 255 |}] |}.

(** A world in which status messages keep arriving, 4 apart, before the
    capture response does. *)
Definition busy_world : world :=
  {| now := 0;
     inbox := [(4, Message status_message);
               (8, Message status_message);
               (12, Message (capture_response green_frame 0 0))] |}.

(** A world whose next message is the response to a capture, taken at
    position [(x, z)]. *)
Definition world_at (image_url : string) (x z : pynum) : world :=
  {| now := 0; inbox := [(1, Message (capture_response_at image_url x z))] |}.

Definition world_with (image_url : string) (x z : Z) : world :=
  world_at image_url (PyInt x) (PyInt z).

(** The floats -31.233881828912253 and -31.71117742628115: a position
    inside the circle of radius 5 around the goal for which line 94
    computes 5.0. *)
Definition edge_x : float := S754_finite true 8791556160376458 (-48).
Definition edge_z : float := S754_finite true 8925902927529967 (-48).

(** The float 1.5e154, whose square is beyond the binary64 range. *)
Definition huge : float := S754_finite false 5038407080675317 460.

(** A world in which nothing ever arrives. *)
Definition silent_world : world := {| now := 0; inbox := [] |}.

End Sample.

(** * Properties *)

(** ** Comparisons on rationals *)

Lemma Qltb_iff (a b : Q) : Qltb a b = true <-> (a < b)%Q.
Proof.
  unfold Qltb. rewrite negb_true_iff.
  split; intro H.
  - apply Qnot_le_lt. intro Hle. apply Qle_bool_iff in Hle. congruence.
  - destruct (Qle_bool b a) eqn:E; [|reflexivity].
    apply Qle_bool_iff in E. exfalso. apply (Qlt_not_le _ _ H E).
Qed.

Lemma Qltb_false_iff (a b : Q) : Qltb a b = false <-> (b <= a)%Q.
Proof.
  unfold Qltb. rewrite negb_false_iff. apply Qle_bool_iff.
Qed.

(** ** The distance of line 94 in binary64 *)

Lemma squared_distance_nonneg (x z : Z) : (0 <= squared_distance x z)%Z.
Proof.
  unfold squared_distance.
  pose proof (Z.square_nonneg (x - -35)). pose proof (Z.square_nonneg (z - -35)).
  lia.
Qed.

Lemma float_eqb_eq (a b : float) : float_eqb a b = true -> a = b.
Proof.
  destruct a as [s|s| |s m e], b as [t|t| |t n k]; simpl; try discriminate;
    try reflexivity.
  - intro H. apply Bool.eqb_prop in H. congruence.
  - intro H. apply Bool.eqb_prop in H. congruence.
  - intro H. apply andb_true_iff in H. destruct H as [H He].
    apply andb_true_iff in H. destruct H as [Hs Hm].
    apply Bool.eqb_prop in Hs. apply Pos.eqb_eq in Hm. apply Z.eqb_eq in He.
    congruence.
Qed.

Lemma float_eqb_refl (a : float) : float_eqb a a = true.
Proof.
  destruct a as [s|s| |s m e]; simpl; rewrite ?Bool.eqb_reflx, ?Pos.eqb_refl, ?Z.eqb_refl;
    reflexivity.
Qed.

Lemma near_cases (c r : float) :
  near c r = true -> r = c \/ r = b64_pred c \/ r = b64_succ c.
Proof.
  unfold near. intro H. apply orb_true_iff in H. destruct H as [H|H].
  - apply orb_true_iff in H. destruct H as [H|H]; apply float_eqb_eq in H; auto.
  - apply float_eqb_eq in H. auto.
Qed.

Lemma Z_range_In (lo : Z) (n : nat) (k : Z) :
  (lo <= k < lo + Z.of_nat n)%Z -> In k (Z_range lo n).
Proof.
  revert lo. induction n as [|n IH]; intros lo H; [lia|].
  cbn [Z_range]. destruct (Z.eq_dec lo k) as [->|Hne]; [left; reflexivity|].
  right. apply IH. lia.
Qed.

(** Every float accurate to the last bit as a root of an integer below 25
    is below 5. *)
Lemma roots_below_25 (s : Z) :
  (0 <= s < 25)%Z -> roots_pass below_threshold s = true.
Proof.
  intro H.
  assert (Hall : forallb (roots_pass below_threshold) (Z_range 0 25) = true)
    by (vm_compute; reflexivity).
  rewrite forallb_forall in Hall. apply Hall. apply Z_range_In. lia.
Qed.

(** Every float accurate to the last bit as a root of an integer from 25 to
    14450 (the largest radicand for coordinates between -50 and 50) is not
    below 5. *)
Lemma roots_from_25 (s : Z) :
  (25 <= s <= 14450)%Z -> roots_pass not_below_threshold s = true.
Proof.
  intro H.
  assert (Hall : forallb (roots_pass not_below_threshold)
                         (Z_range 25 (Z.to_nat 14426)) = true)
    by (vm_compute; reflexivity).
  rewrite forallb_forall in Hall. apply Hall. apply Z_range_In.
  rewrite Z2Nat.id; lia.
Qed.






Section DistanceFacts.

Context {lib : Libraries}.

(** Line 94 reads only the two coordinates. *)
Lemma distance_reads_position (robot_pos : json) (x z : pynum) :
  py_getitem robot_pos "x" = Ok (JNum x) ->
  py_getitem robot_pos "z" = Ok (JNum z) ->
  distance_to_goal robot_pos = distance_to_goal (position_at x z).
Proof.
  intros Hx Hz. unfold distance_to_goal. rewrite Hx, Hz. reflexivity.
Qed.

(** Line 94 on two floats: the two squares in turn, their sum, the root. *)
Lemma distance_of_floats (x z : float) :
  distance_to_goal (position_at (PyFloat x) (PyFloat z)) =
  if square_overflows (b64_sub x (b64_of_Z (-35))) ||
     square_overflows (b64_sub z (b64_of_Z (-35)))
  then Raise (OverflowError "(34, 'Numerical result out of range')")
  else (r <- float_root (b64_radicand x z) ;; Ok (PyFloat r))%result.
Proof.
  unfold distance_to_goal, position_at. cbn [py_getitem dict_get String.eqb Ascii.eqb
    Bool.eqb rbind py_sub_int pos_x pos_z GOAL_POSITION].
  change (float_of_int (-35)) with (Ok (b64_of_Z (-35))). cbn [rbind py_square].
  unfold float_square.
  destruct (square_overflows (b64_sub x (b64_of_Z (-35)))); cbn [rbind orb]; [reflexivity|].
  destruct (square_overflows (b64_sub z (b64_of_Z (-35)))); cbn [rbind orb]; [reflexivity|].
  reflexivity.
Qed.

(** Where line 94 does not raise on two floats, it gives the binary64
    distance. *)
Lemma distance_of_floats_defined (x z : float) :
  float_distance_raises x z = false ->
  distance_to_goal (position_at (PyFloat x) (PyFloat z)) = Ok (PyFloat (b64_distance x z)).
Proof.
  unfold float_distance_raises. intro H.
  apply orb_false_iff in H. destruct H as [H Hroot].
  apply orb_false_iff in H. destruct H as [H Hneg].
  rewrite distance_of_floats, H. unfold float_root. rewrite Hneg, Hroot. reflexivity.
Qed.


(** Line 94 on two ints: the radicand is exact, and goes to the root as a
    float. *)
Lemma distance_of_ints (x z : Z) :
  distance_to_goal (position_at (PyInt x) (PyInt z)) =
  (r <- int_root (squared_distance x z) ;; Ok (PyFloat r))%result.
Proof.
  unfold distance_to_goal, position_at. cbn [py_getitem dict_get String.eqb Ascii.eqb
    Bool.eqb rbind py_sub_int py_square py_add py_root pos_x pos_z GOAL_POSITION].
  fold (squared_distance x z). unfold int_root.
  destruct (float_of_int (squared_distance x z)); reflexivity.
Qed.



(** With a [pow] accurate to the last bit, the root of an integer radicand
    is a float that passes every test which all floats accurate to the
    last bit pass. *)
Lemma int_root_passes (P : float -> bool) (s : Z) :
  last_bit_accurate ->
  (forall r, P r = true -> is_infinite r = false) ->
  roots_pass P s = true ->
  exists r, int_root s = Ok r /\ P r = true.
Proof.
  intros Hacc Hfin Hpass. unfold roots_pass in Hpass. unfold int_root, float_of_int.
  destruct (b64_of_Z s) as [sg|sg| |sg m e] eqn:E;
    cbn [is_finite is_negative andb negb] in Hpass; try discriminate.
  - cbn [rbind]. exists (S754_zero false). split; [|exact Hpass].
    unfold float_root, root_overflows. reflexivity.
  - destruct sg; [discriminate|]. cbn [negb andb] in Hpass. cbn [rbind].
    unfold float_root, root_overflows. cbn [is_negative is_finite andb root_value].
    destruct (b64_eqb (S754_finite false m e) b64_one).
    + exists b64_one. rewrite (Hfin _ Hpass). split; [reflexivity | exact Hpass].
    + destruct (Hacc (S754_finite false m e) eq_refl eq_refl) as [_ Hroot].
      assert (HP : P (pow_half (S754_finite false m e)) = true).
      { unfold root_accurate in Hroot.
        destruct (Qeq_bool _ _).
        - apply float_eqb_eq in Hroot. rewrite Hroot. exact Hpass.
        - apply andb_true_iff in Hpass. destruct Hpass as [Hpass Hsucc].
          apply andb_true_iff in Hpass. destruct Hpass as [Hc Hpred].
          destruct (near_cases _ _ Hroot) as [->|[->| ->]]; assumption. }
      exists (pow_half (S754_finite false m e)). rewrite (Hfin _ HP).
      split; [reflexivity | exact HP].
Qed.

Lemma below_threshold_finite (r : float) :
  below_threshold r = true -> is_infinite r = false.
Proof.
  unfold below_threshold. intro H. apply andb_true_iff in H.
  destruct H as [H _]. apply negb_true_iff in H. exact H.
Qed.

Lemma not_below_threshold_finite (r : float) :
  not_below_threshold r = true -> is_infinite r = false.
Proof.
  unfold not_below_threshold. intro H. apply andb_true_iff in H.
  destruct H as [H _]. apply negb_true_iff in H. exact H.
Qed.

(** An integer position whose squared distance to the goal is below 25 has
    a computed distance below 5. *)
Lemma int_distance_below (x z : Z) :
  last_bit_accurate ->
  (squared_distance x z < 25)%Z ->
  exists r,
    distance_to_goal (position_at (PyInt x) (PyInt z)) = Ok (PyFloat r) /\
    py_lt_int (PyFloat r) GOAL_THRESHOLD = true.
Proof.
  intros Hacc Hlt.
  destruct (int_root_passes below_threshold (squared_distance x z) Hacc
              below_threshold_finite
              (roots_below_25 _ (conj (squared_distance_nonneg x z) Hlt)))
    as (r & Hr & HP).
  exists r. rewrite distance_of_ints, Hr. split; [reflexivity|].
  unfold below_threshold in HP. apply andb_true_iff in HP. apply HP.
Qed.

(** An integer position between -50 and 50 whose squared distance to the
    goal is 25 or more has a computed distance that is not below 5. *)
Lemma int_distance_not_below (x z : Z) :
  last_bit_accurate ->
  (-50 <= x <= 50)%Z -> (-50 <= z <= 50)%Z ->
  (25 <= squared_distance x z)%Z ->
  exists r,
    distance_to_goal (position_at (PyInt x) (PyInt z)) = Ok (PyFloat r) /\
    py_lt_int (PyFloat r) GOAL_THRESHOLD = false.
Proof.
  intros Hacc Hx Hz Hge.
  assert (Hs : (squared_distance x z <= 14450)%Z)
    by (unfold squared_distance; nia).
  destruct (int_root_passes not_below_threshold (squared_distance x z) Hacc
              not_below_threshold_finite (roots_from_25 _ (conj Hge Hs)))
    as (r & Hr & HP).
  exists r. rewrite distance_of_ints, Hr. split; [reflexivity|].
  unfold not_below_threshold in HP. apply andb_true_iff in HP.
  destruct HP as [_ HP]. apply negb_true_iff in HP. exact HP.
Qed.



End DistanceFacts.

(** The sample library's [pow] is correctly rounded, so accurate to the
    last bit. *)
Lemma sample_library_accurate : last_bit_accurate (lib := Sample.library).
Proof.
  intros f _ _. unfold square_accurate, root_accurate, near. cbn [pow_two pow_half Sample.library].
  split.
  - destruct (_ && _); rewrite float_eqb_refl; reflexivity.
  - destruct (Qeq_bool _ _); rewrite float_eqb_refl; reflexivity.
Defined.


Section DistanceEvaluator.

Context {lib : Libraries}.


End DistanceEvaluator.
(** ** The frame classifier *)

Lemma selected_iff (p : pixel) :
  selected p = true <->
  (35 <= ch0 p <= 85 /\ 50 <= ch1 p <= 255 /\ 50 <= ch2 p <= 255)%Z.
Proof.
  unfold selected, inRange_pixel, lower_green, upper_green. simpl.
  destruct (35 <=? ch0 p)%Z eqn:E1, (ch0 p <=? 85)%Z eqn:E2,
           (50 <=? ch1 p)%Z eqn:E3, (ch1 p <=? 255)%Z eqn:E4,
           (50 <=? ch2 p)%Z eqn:E5, (ch2 p <=? 255)%Z eqn:E6; simpl;
    rewrite ?Z.leb_le, ?Z.leb_gt in *;
    (split; [ intro H; try discriminate; lia | intro H; try reflexivity; lia ]).
Qed.

Lemma count_positive_mask (lo hi : pixel) (ps : list pixel) :
  count_positive (map (inRange_pixel lo hi) ps) =
  List.length (filter (fun p => (0 <? inRange_pixel lo hi p)%Z) ps).
Proof.
  unfold count_positive.
  induction ps as [|p ps IH]; simpl; [reflexivity|].
  destruct (0 <? inRange_pixel lo hi p)%Z; simpl; congruence.
Qed.

Lemma green_pixel_count_filter (hsv : image) :
  green_pixel_count hsv = List.length (filter selected (pixels hsv)).
Proof.
  unfold green_pixel_count, inRange_mask. apply count_positive_mask.
Qed.

Lemma green_pixel_count_le (hsv : image) :
  (green_pixel_count hsv <= List.length (pixels hsv))%nat.
Proof.
  rewrite green_pixel_count_filter. apply filter_length_le.
Qed.

Lemma filter_all {A} (f : A -> bool) (l : list A) :
  Forall (fun a => f a = true) l -> filter f l = l.
Proof.
  induction 1 as [|a l Ha _ IH]; simpl; [reflexivity|].
  rewrite Ha, IH. reflexivity.
Qed.

Lemma filter_none {A} (f : A -> bool) (l : list A) :
  Forall (fun a => f a = false) l -> filter f l = [].
Proof.
  induction 1 as [|a l Ha _ IH]; simpl; [reflexivity|].
  rewrite Ha, IH. reflexivity.
Qed.

Section ClassifierFacts.

Context {lib : Libraries}.

Lemma analyze_image_try_decoded (url : string) (img hsv : image) :
  decodes_to url img hsv ->
  analyze_image_try (JStr url) =
  match pixels hsv with
  | [] => Raise (LibraryError "cv2.error"
                   "(-215:Assertion failed) ! _src.empty() in function 'inRange'")
  | _ => Ok (verdict img hsv)
  end.
Proof.
  intros (header & encoded & data & Hs & Hb & Hi & Hc).
  unfold analyze_image_try. cbn [rbind].
  rewrite Hs. cbn [rbind snd]. rewrite Hb. cbn [rbind]. rewrite Hi. cbn [rbind].
  rewrite Hc. cbn [rbind]. unfold inRange.
  destruct (pixels hsv); reflexivity.
Qed.

Lemma analyze_image_decoded (url : string) (img hsv : image) :
  decodes_to url img hsv ->
  pixels hsv <> [] ->
  analyze_image (JStr url) = ([], verdict img hsv).
Proof.
  intros H Hne. unfold analyze_image.
  rewrite (analyze_image_try_decoded _ _ _ H).
  destruct (pixels hsv); [destruct (Hne eq_refl) | reflexivity].
Qed.

Lemma analyze_image_no_pixels (url : string) (img hsv : image) :
  decodes_to url img hsv ->
  pixels hsv = [] ->
  analyze_image (JStr url) =
    ([Print ("Error analyzing image: " ++
             "(-215:Assertion failed) ! _src.empty() in function 'inRange'")],
     false).
Proof.
  intros H He. unfold analyze_image.
  rewrite (analyze_image_try_decoded _ _ _ H), He. reflexivity.
Qed.

Lemma green_fraction_no_pixels (img hsv : image) :
  pixels hsv = [] -> (green_fraction img hsv == 0)%Q.
Proof.
  intro He. unfold green_fraction, green_pixel_count, inRange_mask. rewrite He.
  cbn [map count_positive filter List.length Z.of_nat].
  unfold Qdiv. apply Qmult_0_l.
Qed.

Lemma verdict_iff (img hsv : image) :
  (0 < total_pixels img)%nat ->
  verdict img hsv = true <-> (1 # 1000 < green_fraction img hsv)%Q.
Proof.
  intro Hpos. unfold verdict, green_percentage, green_fraction, np_true_divide.
  destruct (total_pixels img) as [|n] eqn:Et; [lia|].
  set (f := (inject_Z (Z.of_nat (green_pixel_count hsv)) /
             inject_Z (Z.of_nat (S n)))%Q).
  unfold np_scale, np_gt. rewrite Qltb_iff.
  split; intro H; Lqa.lra.
Qed.

(** The verdict of a decodable image, through [analyze_image]. *)
Lemma analyze_image_verdict (url : string) (img hsv : image) :
  decodes_to url img hsv ->
  (0 < total_pixels img)%nat ->
  snd (analyze_image (JStr url)) = true <-> (1 # 1000 < green_fraction img hsv)%Q.
Proof.
  intros Hd Hpos.
  destruct (pixels hsv) as [|p ps] eqn:Hp.
  - rewrite (analyze_image_no_pixels _ _ _ Hd Hp). cbn [snd].
    rewrite (green_fraction_no_pixels _ _ Hp).
    split; [discriminate | intro H; inversion H].
  - rewrite (analyze_image_decoded _ _ _ Hd) by (rewrite Hp; discriminate).
    cbn [snd]. apply verdict_iff, Hpos.
Qed.

Lemma analyze_image_raised (v : json) (e : exn) :
  analyze_image_try v = Raise e ->
  analyze_image v = ([Print ("Error analyzing image: " ++ exn_str e)], false).
Proof.
  intro H. unfold analyze_image. rewrite H. reflexivity.
Qed.

Lemma undecodable_raises (url : string) :
  undecodable url -> exists e, analyze_image_try (JStr url) = Raise e.
Proof.
  unfold undecodable, analyze_image_try. simpl.
  destruct (split_once "," url) as [[header encoded]|]; simpl;
    [|intros _; eexists; reflexivity].
  destruct (b64decode encoded) as [data|e]; simpl;
    [|intros _; eexists; reflexivity].
  destruct (imdecode data) as [[img|]|e]; simpl;
    [intros [] | intros _; eexists; reflexivity | intros _; eexists; reflexivity].
Qed.

(** C2. For a decodable image the verdict is true exactly when the
    fraction of mask-selected pixels over the pixel count exceeds 0.1%
    (1/1000); so the verdict is monotone in that fraction: once true, it
    is true for every image with at least that fraction. *)
Theorem classifier_threshold (url : string) (img hsv : image) :
  decodes_to url img hsv ->
  (0 < total_pixels img)%nat ->
  (snd (analyze_image (JStr url)) = true <->
   (1 # 1000 < green_fraction img hsv)%Q) /\
  (forall url' img' hsv',
      decodes_to url' img' hsv' ->
      (0 < total_pixels img')%nat ->
      (green_fraction img hsv <= green_fraction img' hsv')%Q ->
      snd (analyze_image (JStr url)) = true ->
      snd (analyze_image (JStr url')) = true).
Proof.
  intros Hd Hpos.
  split; [apply analyze_image_verdict; assumption|].
  intros url' img' hsv' Hd' Hpos' Hle Hv.
  apply (analyze_image_verdict _ _ _ Hd Hpos) in Hv.
  apply (analyze_image_verdict _ _ _ Hd' Hpos').
  Lqa.lra.
Qed.

(** C5. A payload that cannot be decoded (no header separator, a base64
    error, bytes the image decoder rejects) makes the classifier print
    the cause and return false; the exception stays inside. *)
Theorem decode_failure_fails_open (url : string) :
  undecodable url ->
  exists cause,
    analyze_image_try (JStr url) = Raise cause /\
    analyze_image (JStr url) =
      ([Print ("Error analyzing image: " ++ exn_str cause)], false).
Proof.
  intro H. destruct (undecodable_raises _ H) as [e He].
  exists e. split; [assumption|]. apply analyze_image_raised, He.
Qed.

(** C8, as amended. The mask selects exactly the 8-bit HSV pixels with hue
    in 35..85 and saturation and value of at least 50; so a decodable
    image whose pixels all have a hue in the band at full saturation and
    value gives true, and one whose pixels all have a hue outside the band
    gives false whatever their saturation and value. *)
Theorem green_mask_band :
  (forall p : pixel,
      uint8_pixel p ->
      (selected p = true <->
       (35 <= ch0 p <= 85 /\ 50 <= ch1 p /\ 50 <= ch2 p)%Z)) /\
  (forall url img hsv,
      decodes_to url img hsv ->
      (0 < total_pixels img)%nat ->
      List.length (pixels hsv) = total_pixels img ->
      (Forall (fun p => (35 <= ch0 p <= 85)%Z /\ ch1 p = 255%Z /\ ch2 p = 255%Z)
              (pixels hsv) ->
       snd (analyze_image (JStr url)) = true) /\
      (Forall (fun p => ~ (35 <= ch0 p <= 85)%Z) (pixels hsv) ->
       snd (analyze_image (JStr url)) = false)).
Proof.
  split.
  - intros p (_ & [_ H1] & [_ H2]). rewrite selected_iff. lia.
  - intros url img hsv Hd Hpos Hlen.
    rewrite (analyze_image_decoded _ _ _ Hd)
      by (intro He; rewrite He in Hlen; simpl in Hlen; lia).
    simpl.
    split; intro Hall.
    + apply verdict_iff; [assumption|].
      unfold green_fraction. rewrite green_pixel_count_filter.
      rewrite filter_all.
      * rewrite Hlen.
        assert (Hq : (0 < inject_Z (Z.of_nat (total_pixels img)))%Q).
        { replace 0%Q with (inject_Z 0) by reflexivity.
          rewrite <- Zlt_Qlt. lia. }
        setoid_replace (inject_Z (Z.of_nat (total_pixels img)) /
                        inject_Z (Z.of_nat (total_pixels img)))%Q with 1%Q.
        -- reflexivity.
        -- field. intro E. rewrite E in Hq. apply (Qlt_irrefl _ Hq).
      * eapply Forall_impl; [|exact Hall].
        intros p (Hh & Hs & Hv). apply selected_iff. lia.
    + destruct (verdict img hsv) eqn:Ev; [|reflexivity].
      apply verdict_iff in Ev; [|assumption].
      unfold green_fraction in Ev. rewrite green_pixel_count_filter in Ev.
      rewrite filter_none in Ev.
      * simpl in Ev. exfalso. revert Ev. unfold Qdiv. rewrite Qmult_0_l.
        intro Ev. inversion Ev.
      * eapply Forall_impl; [|exact Hall].
        intros p Hout. destruct (selected p) eqn:Es; [|reflexivity].
        apply selected_iff in Es. destruct Es as [Hh _]. destruct (Hout Hh).
Qed.

(** C10. On every string the classifier returns a verdict, and the verdict
    is true only for a payload that decodes to an image with pixels and
    enough green; every failure on the way is caught, printed and gives
    false: a base64 error, an image decoder that yields no image, and a
    decoded image without pixels, for which no fraction is computed because
    the library rejects the empty array. *)
Theorem analyze_image_total (s : string) :
  (snd (analyze_image (JStr s)) = true <->
   exists img hsv,
     decodes_to s img hsv /\ pixels hsv <> [] /\ verdict img hsv = true) /\
  (forall header encoded e,
      split_once "," s = Some (header, encoded) ->
      b64decode encoded = Raise e ->
      analyze_image (JStr s) = ([Print ("Error analyzing image: " ++ exn_str e)], false)) /\
  (forall header encoded data,
      split_once "," s = Some (header, encoded) ->
      b64decode encoded = Ok data ->
      imdecode data = Ok None ->
      exists cause,
        analyze_image (JStr s) =
          ([Print ("Error analyzing image: " ++ exn_str cause)], false)) /\
  (forall header encoded data img,
      split_once "," s = Some (header, encoded) ->
      b64decode encoded = Ok data ->
      imdecode data = Ok (Some img) ->
      total_pixels img = 0%nat ->
      (forall hsv, cvtColor_BGR2HSV img = Ok hsv ->
                   List.length (pixels hsv) = total_pixels img) ->
      exists cause,
        analyze_image (JStr s) =
          ([Print ("Error analyzing image: " ++ exn_str cause)], false)).
Proof.
  split; [|split; [|split]].
  - split.
    + intro Htrue. unfold analyze_image in Htrue.
      destruct (analyze_image_try (JStr s)) as [b|e] eqn:Htry; [|discriminate].
      cbn [snd] in Htrue. subst b.
      unfold analyze_image_try in Htry. cbn [rbind] in Htry.
      destruct (split_once "," s) as [[header encoded]|] eqn:Hs;
        cbn [rbind snd] in Htry; [|discriminate].
      destruct (b64decode encoded) as [data|] eqn:Hb; cbn [rbind] in Htry; [|discriminate].
      destruct (imdecode data) as [[img|]|] eqn:Hi; cbn [rbind] in Htry; try discriminate.
      destruct (cvtColor_BGR2HSV img) as [hsv|] eqn:Hc; cbn [rbind] in Htry; [|discriminate].
      unfold inRange in Htry.
      destruct (pixels hsv) as [|p ps] eqn:Hp; cbn [rbind] in Htry; [discriminate|].
      exists img, hsv. split; [exists header, encoded, data; auto|].
      split; [rewrite Hp; discriminate|].
      inversion Htry as [Hv]. unfold verdict, green_percentage, green_pixel_count.
      rewrite Hv. reflexivity.
    + intros (img & hsv & Hd & Hne & Hv).
      rewrite (analyze_image_decoded _ _ _ Hd Hne). exact Hv.
  - intros header encoded e Hs Hb. apply analyze_image_raised.
    unfold analyze_image_try. cbn [rbind]. rewrite Hs. cbn [rbind snd].
    rewrite Hb. reflexivity.
  - intros header encoded data Hs Hb Hi. eexists. apply analyze_image_raised.
    unfold analyze_image_try. cbn [rbind]. rewrite Hs. cbn [rbind snd].
    rewrite Hb. cbn [rbind]. rewrite Hi. reflexivity.
  - intros header encoded data img Hs Hb Hi H0 Hshape.
    destruct (cvtColor_BGR2HSV img) as [hsv|e] eqn:Hc.
    + exists (LibraryError "cv2.error"
                "(-215:Assertion failed) ! _src.empty() in function 'inRange'").
      apply analyze_image_no_pixels with (img := img) (hsv := hsv).
      * exists header, encoded, data. auto.
      * specialize (Hshape hsv eq_refl). rewrite H0 in Hshape.
        destruct (pixels hsv); [reflexivity | discriminate].
    + exists e. apply analyze_image_raised.
      unfold analyze_image_try. cbn [rbind]. rewrite Hs. cbn [rbind snd].
      rewrite Hb. cbn [rbind]. rewrite Hi. cbn [rbind]. rewrite Hc. reflexivity.
Qed.

End ClassifierFacts.

(** C8, as first stated: saturation and value would have to exceed 50.  The
    pixel (60, 50, 50) is selected by the mask, whose bounds are inclusive. *)
Lemma mask_bounds_inclusive :
  ~ (forall p : pixel,
        uint8_pixel p ->
        (selected p = true <->
         (35 <= ch0 p <= 85 /\ 50 < ch1 p /\ 50 < ch2 p)%Z)).
Proof.
  intro H.
  specialize (H {| ch0 := 60; ch1 := 50; ch2 := 50 |}).
  assert (Hu : uint8_pixel {| ch0 := 60; ch1 := 50; ch2 := 50 |})
    by (unfold uint8_pixel, uint8; simpl; lia).
  apply H in Hu. destruct Hu as [Hsel _].
  assert (Hs : selected {| ch0 := 60; ch1 := 50; ch2 := 50 |} = true) by reflexivity.
  apply Hsel in Hs. simpl in Hs. lia.
Qed.

(** ** The capture channel *)

Lemma capture_unfold (w : world) :
  capture_image_from_server w =
  match recv_until_response (inbox w) (now w) with
  | (Ok data, clock, pending) =>
      ([TriggerCapture], {| now := clock; inbox := pending |}, Ok (Some data))
  | (Raise TimeoutError, clock, pending) =>
      ([TriggerCapture; Print "Timeout waiting for image response."],
       {| now := clock; inbox := pending |}, Ok None)
  | (Raise e, clock, pending) =>
      ([TriggerCapture], {| now := clock; inbox := pending |}, Raise e)
  end.
Proof.
  unfold capture_image_from_server, io_bind, except_timeout, await_response, post.
  destruct (recv_until_response (inbox w) (now w)) as [[r clock] pending].
  destruct r as [data|e]; [reflexivity|].
  destruct e; reflexivity.
Qed.

Lemma capture_events (w : world) :
  forall evs w1 r,
    capture_image_from_server w = (evs, w1, r) ->
    match r with
    | Ok None => evs = [TriggerCapture; Print "Timeout waiting for image response."]
    | _ => evs = [TriggerCapture]
    end.
Proof.
  intros evs w1 r. rewrite capture_unfold.
  destruct (recv_until_response (inbox w) (now w)) as [[r' clock] pending].
  destruct r' as [data|e]; [|destruct e]; intro H; inversion H; subst; reflexivity.
Qed.

Lemma Qmax_ge_l (a b : Q) : (a <= Qmax a b)%Q.
Proof. apply Q.le_max_l. Qed.

Lemma Qmax_lt (a b c : Q) : (a < c -> b < c -> Qmax a b < c)%Q.
Proof. intros Ha Hb. apply Q.max_lub_lt; assumption. Qed.

(** The receive loop only moves forward in the inbox and in time, and takes
    at most 5 per message it received, plus 5. *)
Lemma inject_succ (n : nat) :
  (inject_Z (Z.of_nat (S n)) == inject_Z (Z.of_nat n) + 1)%Q.
Proof.
  rewrite Nat2Z.inj_succ. unfold Z.succ. rewrite inject_Z_plus. reflexivity.
Qed.

Lemma inject_nonneg (n : nat) : (0 <= inject_Z (Z.of_nat n))%Q.
Proof.
  replace 0%Q with (inject_Z 0) by reflexivity. rewrite <- Zle_Qle. lia.
Qed.

Ltac q_arith :=
  cbn [List.length app] in *;
  rewrite ?inject_succ in *;
  change (inject_Z (Z.of_nat 0)) with 0%Q in *;
  Lqa.lra.

Lemma recv_until_response_spec (pending : list (Q * ws_item)) :
  forall clock r clock' pending',
    recv_until_response pending clock = (r, clock', pending') ->
    exists received,
      pending = received ++ pending' /\
      (clock <= clock')%Q /\
      (clock' <= clock + 5 * inject_Z (Z.of_nat (S (List.length received))))%Q /\
      match r with
      | Ok data =>
          exists others arrival,
            received = others ++ [(arrival, Message data)] /\
            is_capture_response (Message data) = true /\
            Forall (fun m => is_other_message (snd m) = true) others
      | Raise TimeoutError =>
          Forall (fun m => is_other_message (snd m) = true) received /\
          silent_for {| now := (clock' - 5)%Q; inbox := pending' |} 5
      | Raise _ => True
      end.
Proof.
  induction pending as [|[arrival item] rest IH]; intros clock r clock' pending' H.
  - simpl in H. inversion H; subst. exists [].
    repeat split; try q_arith. constructor.
  - simpl in H. destruct (Qltb arrival (clock + 5)) eqn:Hin.
    + apply Qltb_iff in Hin.
      pose proof (Qmax_ge_l clock arrival) as Hge.
      assert (Hlt : (Qmax clock arrival < clock + 5)%Q)
        by (apply Qmax_lt; [Lqa.lra | assumption]).
      assert (Hone : forall r0 : result json,
                 match r0 with Raise TimeoutError => False | _ => True end ->
                 (r0, Qmax clock arrival, rest) = (r, clock', pending') ->
                 match r0 with Ok _ => False | _ => True end ->
                 exists received,
                   (arrival, item) :: rest = received ++ pending' /\
                   (clock <= clock')%Q /\
                   (clock' <= clock + 5 * inject_Z (Z.of_nat (S (List.length received))))%Q /\
                   match r with
                   | Ok data =>
                       exists others arrival0,
                         received = others ++ [(arrival0, Message data)] /\
                         is_capture_response (Message data) = true /\
                         Forall (fun m => is_other_message (snd m) = true) others
                   | Raise TimeoutError =>
                       Forall (fun m => is_other_message (snd m) = true) received /\
                       silent_for {| now := (clock' - 5)%Q; inbox := pending' |} 5
                   | Raise _ => True
                   end).
      { intros r0 Hnt Heq Hnok. inversion Heq; subst.
        exists [(arrival, item)].
        repeat split; try q_arith.
        destruct r as [d|e]; [destruct Hnok|]. destruct e; try exact I. destruct Hnt. }
      destruct item as [data|text|].
      * destruct (py_get data "type") as [ty|e] eqn:Hty.
        -- destruct (py_eq_str ty "capture_image_response") eqn:Heq.
           ++ inversion H; subst. exists [(arrival, Message data)].
              repeat split; try q_arith.
              exists [], arrival. simpl. rewrite Hty.
              repeat split; [assumption | constructor].
           ++ destruct (IH _ _ _ _ H) as (received & Hrec & Hle1 & Hle2 & Hr).
              exists ((arrival, Message data) :: received).
              assert (Hother : is_other_message (Message data) = true)
                by (simpl; rewrite Hty, Heq; reflexivity).
              split; [simpl; rewrite Hrec; reflexivity|].
              split; [Lqa.lra|].
              split; [q_arith|].
              destruct r as [d|e].
              ** destruct Hr as (others & arr & Ho & Hc & Hall).
                 exists ((arrival, Message data) :: others), arr.
                 repeat split; [rewrite Ho; reflexivity | assumption |].
                 constructor; assumption.
              ** destruct e; try exact I.
                 destruct Hr as [Hall Hsil]. split; [|assumption].
                 constructor; assumption.
        -- apply (Hone (Raise e)); [|assumption|exact I].
           destruct data; simpl in Hty; inversion Hty; exact I.
      * apply (Hone (Raise (JSONDecodeError "Expecting value: line 1 column 1 (char 0)")));
          [exact I | assumption | exact I].
      * apply (Hone (Raise ConnectionClosed)); [exact I | assumption | exact I].
    + apply Qltb_false_iff in Hin. inversion H; subst. exists [].
      repeat split; try q_arith; [apply Forall_nil|].
      unfold silent_for. cbn [inbox now]. Lqa.lra.
Qed.

(** The wait as the code has it.  The bound of 5 is on each receive, not on
    the whole wait: the channel reports a timeout when nothing arrives
    during 5; a message of another type that arrives in time is dropped and
    the wait goes on from its arrival with a new window of 5; so the wait
    lasts at most 5 per message received plus 5, the messages received are
    gone from the inbox, and on a timeout all of them were messages of other
    types and the last 5 were silent. *)
Theorem capture_wait_per_receive :
  (forall w,
      silent_for w 5 ->
      capture_image_from_server w =
        ([TriggerCapture; Print "Timeout waiting for image response."],
         advance w 5, Ok None)) /\
  (forall clock arrival item rest,
      (arrival < clock + 5)%Q ->
      is_other_message item = true ->
      capture_image_from_server {| now := clock; inbox := (arrival, item) :: rest |} =
      capture_image_from_server {| now := Qmax clock arrival; inbox := rest |}) /\
  (forall w evs w' r,
      capture_image_from_server w = (evs, w', r) ->
      exists received,
        inbox w = received ++ inbox w' /\
        (now w <= now w')%Q /\
        (now w' <= now w + 5 * inject_Z (Z.of_nat (S (List.length received))))%Q /\
        (r = Ok None ->
         Forall (fun m => is_other_message (snd m) = true) received /\
         silent_for {| now := (now w' - 5)%Q; inbox := inbox w' |} 5)).
Proof.
  split; [|split].
  - intros [clock pending] Hs. rewrite capture_unfold. unfold silent_for in Hs.
    cbn [inbox now] in *. unfold advance. cbn [inbox now].
    destruct pending as [|[arrival item] rest]; [reflexivity|].
    cbn [recv_until_response].
    apply Qltb_false_iff in Hs. rewrite Hs. reflexivity.
  - intros clock arrival item rest Hlt Hother.
    rewrite !capture_unfold. cbn [inbox now recv_until_response].
    apply Qltb_iff in Hlt. rewrite Hlt.
    destruct item as [data| |]; try discriminate.
    simpl in Hother. destruct (py_get data "type") as [ty|]; [|discriminate].
    apply negb_true_iff in Hother. rewrite Hother. reflexivity.
  - intros w evs w' r. rewrite capture_unfold.
    destruct (recv_until_response (inbox w) (now w)) as [[r0 clock'] pending'] eqn:Hr.
    apply recv_until_response_spec in Hr.
    destruct Hr as (received & Hrec & Hle1 & Hle2 & Hcase).
    intro H. exists received.
    destruct r0 as [data|e]; [|destruct e]; inversion H; subst; cbn [inbox now];
      (repeat split; try assumption; try discriminate).
    + apply Hcase.
    + apply Hcase.
Qed.

(** ** What the controller can emit *)

Lemma emits_only_ret {A} (P : event -> Prop) (a : A) : emits_only P (io_ret a).
Proof. intro w. constructor. Qed.

Lemma emits_only_bind {A B} (P : event -> Prop) (c : io A) (k : A -> io B) :
  emits_only P c -> (forall a, emits_only P (k a)) -> emits_only P (io_bind c k).
Proof.
  intros Hc Hk w. unfold io_bind. specialize (Hc w).
  destruct (c w) as [[evs w1] [a|e]]; cbn [fst] in *; [|assumption].
  specialize (Hk a w1). destruct (k a w1) as [[evs' w2] r]. cbn [fst] in *.
  apply Forall_app. split; assumption.
Qed.

Lemma emits_only_except_timeout {A} (P : event -> Prop) (c h : io A) :
  emits_only P c -> emits_only P h -> emits_only P (except_timeout c h).
Proof.
  intros Hc Hh w. unfold except_timeout. specialize (Hc w).
  destruct (c w) as [[evs w1] [a|e]]; cbn [fst] in *; [assumption|].
  destruct e; try assumption.
  specialize (Hh w1). destruct (h w1) as [[evs' w2] r]. cbn [fst] in *.
  apply Forall_app. split; assumption.
Qed.

Lemma emits_only_print (P : event -> Prop) (line : string) :
  P (Print line) -> emits_only P (print line).
Proof. intros H w. repeat constructor. exact H. Qed.

Lemma emits_only_post (P : event -> Prop) (url : string) (body : option json) :
  P (Post url body) -> emits_only P (post url body).
Proof. intros H w. repeat constructor. exact H. Qed.

Lemma emits_only_sleep (P : event -> Prop) (t : Q) :
  P (Sleep t) -> emits_only P (sleep t).
Proof. intros H w. repeat constructor. exact H. Qed.

Lemma emits_only_lift {A} (P : event -> Prop) (r : result A) :
  emits_only P (lift r).
Proof. intro w. constructor. Qed.

Lemma emits_only_emit {A} (P : event -> Prop) (out : list event * A) :
  Forall P (fst out) -> emits_only P (emit out).
Proof. intros H w. exact H. Qed.

Lemma emits_only_await (P : event -> Prop) : emits_only P await_response.
Proof.
  intro w. unfold await_response.
  destruct (recv_until_response (inbox w) (now w)) as [[r clock] pending].
  constructor.
Qed.

Lemma emits_only_capture (P : event -> Prop) :
  P TriggerCapture -> (forall line, P (Print line)) ->
  emits_only P capture_image_from_server.
Proof.
  intros Hc Hp. unfold capture_image_from_server.
  apply emits_only_bind; [apply emits_only_post, Hc | intros _].
  apply emits_only_except_timeout.
  - apply emits_only_bind; [apply emits_only_await | intro; apply emits_only_ret].
  - apply emits_only_bind; [apply emits_only_print, Hp | intro; apply emits_only_ret].
Qed.

Lemma commands_app (a b : list event) : commands (a ++ b) = commands a ++ commands b.
Proof. apply filter_app. Qed.

Section NavigationFacts.

Context {lib : Libraries}.

(** ** One turn of the loop *)

Lemma cycle_timeout (w w1 : world) (evs : list event) :
  capture_image_from_server w = (evs, w1, Ok None) ->
  cycle w = (evs ++ [Print "Failed to get image. Retrying..."; Sleep 1],
             advance w1 1, Ok LoopContinue).
Proof.
  intro H. unfold cycle, io_bind. rewrite H. reflexivity.
Qed.

Lemma cycle_frame (w w1 : world) (evs : list event)
      (response image_data : json) (distance : pynum) :
  capture_image_from_server w = (evs, w1, Ok (Some response)) ->
  frame_of response image_data distance ->
  cycle w =
  if py_lt_int distance GOAL_THRESHOLD
  then (evs ++ goal_reached_events, w1, Ok LoopBreak)
  else if snd (analyze_image image_data)
       then (evs ++ fst (analyze_image image_data) ++ obstacle_events,
             advance (advance w1 2) 1, Ok LoopContinue)
       else (evs ++ fst (analyze_image image_data) ++ clear_events,
             advance (advance w1 1) 1, Ok LoopContinue).
Proof.
  intros H (Himg & robot_pos & Hpos & Hdist).
  unfold cycle, io_bind. rewrite H. unfold lift.
  rewrite Himg, Hpos, Hdist.
  destruct (py_lt_int distance GOAL_THRESHOLD); [reflexivity|].
  unfold emit. destruct (analyze_image image_data) as [log v]. cbn [fst snd].
  destruct v; cbn; rewrite ?app_nil_r; reflexivity.
Qed.

Lemma analyze_image_log (v : json) :
  Forall (fun e => exists line, e = Print line) (fst (analyze_image v)).
Proof.
  unfold analyze_image. destruct (analyze_image_try v); cbn [fst].
  - constructor.
  - repeat constructor. eexists. reflexivity.
Qed.

Lemma analyze_image_no_command (v : json) : commands (fst (analyze_image v)) = [].
Proof.
  apply filter_none. eapply Forall_impl; [|apply analyze_image_log].
  intros e [line ->]. reflexivity.
Qed.

(** The loop emits nothing but prints, sleeps and these five commands. *)
Lemma cycle_emits (P : event -> Prop) :
  (forall line, P (Print line)) -> (forall t, P (Sleep t)) ->
  P TriggerCapture -> P Stop ->
  P (MoveRelative 20 5) -> P (MoveRelative 0 10) -> P (MoveAbsolute GOAL_POSITION) ->
  emits_only P cycle.
Proof.
  intros Hp Hs Hc Hstop Hturn Hstep Hmove. unfold cycle.
  apply emits_only_bind; [apply emits_only_capture; assumption|].
  intros [response|].
  - repeat (apply emits_only_bind; [apply emits_only_lift | intro]).
    destruct (py_lt_int _ _).
    + apply emits_only_bind; [apply emits_only_print, Hp | intro].
      apply emits_only_bind; [apply emits_only_post, Hstop | intro].
      apply emits_only_ret.
    + apply emits_only_bind.
      * apply emits_only_emit. eapply Forall_impl; [|apply analyze_image_log].
        intros e [line ->]. apply Hp.
      * intros [|].
        -- apply emits_only_bind.
           ++ apply emits_only_bind; [apply emits_only_print, Hp | intro].
              apply emits_only_bind; [apply emits_only_post, Hturn | intro].
              apply emits_only_sleep, Hs.
           ++ intro. apply emits_only_bind; [apply emits_only_sleep, Hs | intro].
              apply emits_only_ret.
        -- apply emits_only_bind.
           ++ apply emits_only_bind; [apply emits_only_print, Hp | intro].
              apply emits_only_bind; [apply emits_only_post, Hstep | intro].
              apply emits_only_bind; [apply emits_only_sleep, Hs | intro].
              apply emits_only_post, Hmove.
           ++ intro. apply emits_only_bind; [apply emits_only_sleep, Hs | intro].
              apply emits_only_ret.
  - apply emits_only_bind; [apply emits_only_print, Hp | intro].
    apply emits_only_bind; [apply emits_only_sleep, Hs | intro].
    apply emits_only_ret.
Qed.

Lemma main_loop_emits (P : event -> Prop) (turns : nat) :
  (forall line, P (Print line)) -> (forall t, P (Sleep t)) ->
  P TriggerCapture -> P Stop ->
  P (MoveRelative 20 5) -> P (MoveRelative 0 10) -> P (MoveAbsolute GOAL_POSITION) ->
  emits_only P (main_loop turns).
Proof.
  intros Hp Hs Hc Hstop Hturn Hstep Hmove.
  induction turns as [|n IH]; cbn [main_loop].
  - apply emits_only_ret.
  - apply emits_only_bind; [apply cycle_emits; assumption|].
    intros [|]; [exact IH | apply emits_only_ret].
Qed.

Lemma frame_of_reports (response image_data : json) (x z : pynum) (distance : pynum) :
  reports response image_data x z ->
  distance_to_goal (position_at x z) = Ok distance ->
  frame_of response image_data distance.
Proof.
  intros (Himg & robot_pos & Hpos & Hx & Hz) Hd.
  split; [exact Himg|]. exists robot_pos. split; [exact Hpos|].
  rewrite (distance_reads_position _ _ _ Hx Hz). exact Hd.
Qed.

Lemma stops_when_below (w w1 : world) (evs : list event)
      (response image_data : json) (distance : pynum) :
  capture_image_from_server w = (evs, w1, Ok (Some response)) ->
  frame_of response image_data distance ->
  py_lt_int distance GOAL_THRESHOLD = true ->
  stops_there w w1.
Proof.
  intros Hcap Hframe Hbelow.
  pose proof (cycle_frame _ _ _ _ _ _ Hcap Hframe) as Hcycle.
  rewrite Hbelow in Hcycle.
  pose proof (capture_events _ _ _ _ Hcap) as Hevs. cbn in Hevs. subst evs.
  split; [exact Hcycle|].
  split; [|repeat split].
  intro n. cbn [main_loop]. unfold io_bind at 1. rewrite Hcycle.
  reflexivity.
Qed.

Lemma acts_when_not_below (w w1 : world) (evs : list event)
      (response image_data : json) (distance : pynum) :
  capture_image_from_server w = (evs, w1, Ok (Some response)) ->
  frame_of response image_data distance ->
  py_lt_int distance GOAL_THRESHOLD = false ->
  acts_on_verdict w w1 image_data.
Proof.
  intros Hcap Hframe Hfar.
  pose proof (cycle_frame _ _ _ _ _ _ Hcap Hframe) as Hcycle.
  rewrite Hfar in Hcycle.
  pose proof (capture_events _ _ _ _ Hcap) as Hevs. cbn in Hevs. subst evs.
  split; intro Hv; rewrite Hv in Hcycle; (split; [exact Hcycle|]);
    rewrite Hcycle; cbn [fst];
    rewrite !commands_app, analyze_image_no_command; reflexivity.
Qed.

(** C1. After a successful capture, the loop computes the distance from the
    reported position to the goal, and when that distance is below the
    threshold 5 the turn prints, sends exactly one Stop and leaves the loop:
    the image is not looked at (the outcome is the same whatever it is), no
    Move is sent, and the loop is over whatever number of turns was still
    allowed.  The distance is that of line 94: for a position given by two
    floats on which line 94 does not raise, it is the binary64 value of the
    Euclidean distance formula; for a position given by two ints, with a
    [pow] accurate to the last bit, the turn stops whenever the exact
    squared distance is below 25. *)
Theorem goal_reached_stops (w w1 : world) (evs : list event)
        (response image_data : json) :
  capture_image_from_server w = (evs, w1, Ok (Some response)) ->
  (forall distance,
      frame_of response image_data distance ->
      py_lt_int distance GOAL_THRESHOLD = true ->
      stops_there w w1) /\
  (forall x z : float,
      reports response image_data (PyFloat x) (PyFloat z) ->
      float_distance_raises x z = false ->
      b64_ltb (b64_distance x z) (b64_of_Z 5) = true ->
      stops_there w w1) /\
  (last_bit_accurate ->
   forall x z : Z,
     reports response image_data (PyInt x) (PyInt z) ->
     (squared_distance x z < 25)%Z ->
     stops_there w w1).
Proof.
  intro Hcap. split; [|split].
  - intros distance. apply stops_when_below with (1 := Hcap).
  - intros x z Hrep Hdef Hbelow.
    apply (stops_when_below w w1 evs response image_data (PyFloat (b64_distance x z)) Hcap);
      [|exact Hbelow].
    apply (frame_of_reports _ _ _ _ _ Hrep).
    apply distance_of_floats_defined, Hdef.
  - intros Hacc x z Hrep Hbelow.
    destruct (int_distance_below x z Hacc Hbelow) as (r & Hr & Hlt).
    apply (stops_when_below w w1 evs response image_data (PyFloat r) Hcap);
      [|exact Hlt].
    apply (frame_of_reports _ _ _ _ _ Hrep). exact Hr.
Qed.

(** C3. After a successful capture with a distance that is not below the
    threshold, the turn classifies the frame and acts on the verdict: on
    true its commands are the capture trigger and one MoveRelative(20, 5),
    with no move toward the goal; on false they are the capture trigger,
    MoveRelative(0, 10) and then the move toward the goal.  The distance is
    that of line 94: for two floats on which line 94 does not raise, the
    binary64 value of the Euclidean distance formula; for two ints between
    -50 and 50, with a [pow] accurate to the last bit, an exact squared
    distance of 25 or more. *)
Theorem act_on_verdict (w w1 : world) (evs : list event)
        (response image_data : json) :
  capture_image_from_server w = (evs, w1, Ok (Some response)) ->
  (forall distance,
      frame_of response image_data distance ->
      py_lt_int distance GOAL_THRESHOLD = false ->
      acts_on_verdict w w1 image_data) /\
  (forall x z : float,
      reports response image_data (PyFloat x) (PyFloat z) ->
      float_distance_raises x z = false ->
      b64_ltb (b64_distance x z) (b64_of_Z 5) = false ->
      acts_on_verdict w w1 image_data) /\
  (last_bit_accurate ->
   forall x z : Z,
     reports response image_data (PyInt x) (PyInt z) ->
     (-50 <= x <= 50)%Z -> (-50 <= z <= 50)%Z ->
     (25 <= squared_distance x z)%Z ->
     acts_on_verdict w w1 image_data).
Proof.
  intro Hcap. split; [|split].
  - intros distance. apply acts_when_not_below with (1 := Hcap).
  - intros x z Hrep Hdef Hfar.
    apply (acts_when_not_below w w1 evs response image_data (PyFloat (b64_distance x z)) Hcap);
      [|exact Hfar].
    apply (frame_of_reports _ _ _ _ _ Hrep).
    apply distance_of_floats_defined, Hdef.
  - intros Hacc x z Hrep Hx Hz Hfar.
    destruct (int_distance_not_below x z Hacc Hx Hz Hfar) as (r & Hr & Hge).
    apply (acts_when_not_below w w1 evs response image_data (PyFloat r) Hcap);
      [|exact Hge].
    apply (frame_of_reports _ _ _ _ _ Hrep). exact Hr.
Qed.

(** C6. Whenever the capture times out, the turn prints a diagnostic,
    sleeps 1 and goes back to the capture: its only command is the capture
    trigger, no movement and no stop.  This repeats without limit and with
    the same delay: on a channel that never delivers, after any number of
    turns the loop is still running, having emitted that same turn over
    and over, 6 apart. *)
Theorem capture_timeout_retries :
  (forall w w1 evs,
      capture_image_from_server w = (evs, w1, Ok None) ->
      cycle w = (retry_events, advance w1 1, Ok LoopContinue) /\
      commands retry_events = [TriggerCapture] /\
      count is_move retry_events = 0%nat /\
      count is_stop retry_events = 0%nat) /\
  (forall n clock,
      exists w',
        main_loop n {| now := clock; inbox := [] |} =
          (List.concat (repeat retry_events n), w', Ok StillRunning) /\
        inbox w' = [] /\
        (now w' == clock + 6 * inject_Z (Z.of_nat n))%Q).
Proof.
  split.
  - intros w w1 evs Hcap.
    pose proof (capture_events _ _ _ _ Hcap) as Hevs. cbn in Hevs. subst evs.
    rewrite (cycle_timeout _ _ _ Hcap). repeat split.
  - induction n as [|n IH]; intro clock.
    + eexists. cbn [main_loop repeat concat]. unfold io_ret.
      split; [reflexivity|]. split; [reflexivity|]. cbn [now]. q_arith.
    + destruct (IH (clock + 5 + 1)%Q) as (w' & Hrun & Hin & Hnow).
      exists w'. split; [|split; [assumption|]].
      * cbn [main_loop repeat concat]. unfold io_bind at 1.
        assert (Hc : cycle {| now := clock; inbox := [] |} =
                     (retry_events, {| now := (clock + 5 + 1)%Q; inbox := [] |},
                      Ok LoopContinue)) by reflexivity.
        rewrite Hc, Hrun. reflexivity.
      * rewrite Hnow. rewrite inject_succ. Lqa.lra.
Qed.

(** C9. Whatever the simulator does, a run starts by sending SetGoal(Goal):
    it is the first command of the run, before any capture trigger, and the
    loop that follows never sends it again. *)
Theorem set_goal_first (turns : nat) (w : world) :
  exists rest,
    fst (fst (main turns w)) =
      [Print "🤖 Autonomous Robot Controller started.";
       Print "🎯 Goal set to: {'x': -35, 'z': -35}";
       SetGoal GOAL_POSITION;
       Print "Goal position sent to simulator."] ++ rest /\
    rest = fst (fst (main_loop turns w)) /\
    Forall (fun e => is_set_goal e = false) rest /\
    hd_error (commands (fst (fst (main turns w)))) = Some (SetGoal GOAL_POSITION) /\
    count is_set_goal (fst (fst (main turns w))) = 1%nat.
Proof.
  exists (fst (fst (main_loop turns w))).
  assert (Hrest : Forall (fun e => is_set_goal e = false) (fst (fst (main_loop turns w))))
    by (apply main_loop_emits; intros; reflexivity).
  assert (Hmain : fst (fst (main turns w)) =
                  [Print "🤖 Autonomous Robot Controller started.";
                   Print "🎯 Goal set to: {'x': -35, 'z': -35}";
                   SetGoal GOAL_POSITION;
                   Print "Goal position sent to simulator."]
                  ++ fst (fst (main_loop turns w))).
  { unfold main, io_bind, print, post.
    destruct (main_loop turns w) as [[evs w'] r]. reflexivity. }
  split; [exact Hmain|]. split; [reflexivity|]. split; [exact Hrest|].
  rewrite Hmain. split; [reflexivity|].
  unfold count. rewrite filter_app, length_app, (filter_none _ _ Hrest).
  reflexivity.
Qed.

End NavigationFacts.


(** ** The model at work *)

(** The 2x2 green frame decodes to [green_bgr], converted to [green_hsv]. *)
Lemma green_frame_decodes :
  decodes_to (lib := Sample.library) Sample.green_frame Sample.green_bgr Sample.green_hsv.
Proof.
  exists "data:image/x-portable-pixmap;base64".
  eexists. eexists.
  split; [vm_compute; reflexivity|].
  split; [vm_compute; reflexivity|].
  split; vm_compute; reflexivity.
Defined.

(** The 1x1 blue frame decodes to [blue_bgr], converted to [blue_hsv]. *)
Lemma blue_frame_decodes :
  decodes_to (lib := Sample.library) Sample.blue_frame Sample.blue_bgr Sample.blue_hsv.
Proof.
  exists "data:image/x-portable-pixmap;base64".
  eexists. eexists.
  split; [vm_compute; reflexivity|].
  split; [vm_compute; reflexivity|].
  split; vm_compute; reflexivity.
Defined.

Example pure_green_is_an_obstacle :
  analyze_image (lib := Sample.library) (JStr Sample.green_frame) = ([], true).
Proof. vm_compute. reflexivity. Qed.

Example pure_blue_is_no_obstacle :
  analyze_image (lib := Sample.library) (JStr Sample.blue_frame) = ([], false).
Proof. vm_compute. reflexivity. Qed.

(** A capture response carries its image and its position. *)
Lemma reports_capture_response (image_url : string) (x z : pynum) :
  reports (Sample.capture_response_at image_url x z) (JStr image_url) x z.
Proof.
  split; [reflexivity|].
  exists (position_at x z). repeat split.
Defined.

(** A response that arrives in time is returned at its arrival. *)
Lemma capture_in_world_at (image_url : string) (x z : pynum) :
  capture_image_from_server (Sample.world_at image_url x z) =
  ([TriggerCapture], {| now := 1; inbox := [] |},
   Ok (Some (Sample.capture_response_at image_url x z))).
Proof. reflexivity. Defined.

(** The position [(edge_x, edge_z)] lies inside the circle of radius 5
    around the goal, and line 94 computes the distance 5.0 for it: the
    comparison with the threshold is on the rounded value. *)
Example edge_position_rounds_to_threshold :
  ((b64_value Sample.edge_x + 35) * (b64_value Sample.edge_x + 35) +
   (b64_value Sample.edge_z + 35) * (b64_value Sample.edge_z + 35) < 5 * 5)%R /\
  distance_to_goal (lib := Sample.library)
    (position_at (PyFloat Sample.edge_x) (PyFloat Sample.edge_z)) =
    Ok (PyFloat (S754_finite false 5629499534213120 (-50))) /\
  b64_value (S754_finite false 5629499534213120 (-50)) = 5%R.
Proof.
  split; [|split].
  - unfold b64_value, Sample.edge_x, Sample.edge_z. cbn [Z.leb Z.compare Z.opp].
    change (2 ^ 48)%Z with 281474976710656%Z. lra.
  - vm_compute. reflexivity.
  - unfold b64_value. cbn [Z.leb Z.compare Z.opp].
    change (2 ^ 50)%Z with 1125899906842624%Z. lra.
Qed.

(** C4 (code bug), at the failing input.  In [busy_world] two status
    messages arrive at 4 and 8 and the capture response at 12: the channel
    skips the two, reports no timeout, and returns the response at 12, well
    after the window of 5 that the wait was to be bounded by overall. *)
Example busy_world_capture :
  capture_image_from_server Sample.busy_world =
  ([TriggerCapture], {| now := 12; inbox := [] |},
   Ok (Some (Sample.capture_response Sample.green_frame 0 0))).
Proof. vm_compute. reflexivity. Qed.

(** A wait bounded by 5 overall would report a timeout whenever no capture
    response arrives within 5; the channel as written does not. *)
Lemma capture_wait_exceeds_window :
  ~ (forall w,
        (forall arrival item,
            In (arrival, item) (inbox w) ->
            is_capture_response item = true ->
            (now w + 5 <= arrival)%Q) ->
        exists evs w',
          capture_image_from_server w = (evs, w', Ok None) /\
          (now w' <= now w + 5)%Q).
Proof.
  intro H. destruct (H Sample.busy_world) as (evs & w' & Hcap & _).
  - intros arrival item Hin Hresp. simpl in Hin.
    destruct Hin as [E|[E|[E|[]]]]; inversion E; subst.
    + discriminate Hresp.
    + discriminate Hresp.
    + vm_compute. discriminate.
  - vm_compute in Hcap. discriminate Hcap.
Qed.

(** [capture_wait_per_receive] in the silent world and in the busy one. *)
Lemma capture_wait_per_receive_example :
  capture_image_from_server Sample.silent_world =
    ([TriggerCapture; Print "Timeout waiting for image response."],
     advance Sample.silent_world 5, Ok None) /\
  capture_image_from_server Sample.busy_world =
    capture_image_from_server
      {| now := Qmax 0 4;
         inbox := [(8, Message Sample.status_message);
                   (12, Message (Sample.capture_response Sample.green_frame 0 0))] |}.
Proof.
  destruct capture_wait_per_receive as (Hsilent & Hother & _).
  split.
  - apply Hsilent. exact I.
  - apply (Hother 0 4 (Message Sample.status_message)).
    + vm_compute. reflexivity.
    + reflexivity.
Defined.

(** [goal_reached_stops] on a frame taken at the ints (-33, -32), whose
    squared distance to the goal is 13, and on one taken at the floats
    (-33.0, -32.0), whose computed distance is below 5.0. *)
Lemma goal_reached_stops_witness :
  (cycle (lib := Sample.library) (Sample.world_with Sample.green_frame (-33) (-32)) =
     ([TriggerCapture] ++ goal_reached_events, {| now := 1; inbox := [] |}, Ok LoopBreak) /\
   (forall n,
       main_loop (lib := Sample.library) (S n)
                 (Sample.world_with Sample.green_frame (-33) (-32)) =
         ([TriggerCapture] ++ goal_reached_events, {| now := 1; inbox := [] |},
          Ok GoalReached)) /\
   commands ([TriggerCapture] ++ goal_reached_events) = [TriggerCapture; Stop] /\
   count is_stop ([TriggerCapture] ++ goal_reached_events) = 1%nat /\
   count is_move ([TriggerCapture] ++ goal_reached_events) = 0%nat) /\
  stops_there (lib := Sample.library)
    (Sample.world_at Sample.green_frame (PyFloat (b64_of_Z (-33))) (PyFloat (b64_of_Z (-32))))
    {| now := 1; inbox := [] |}.
Proof.
  split.
  - apply (proj2 (proj2 (goal_reached_stops (lib := Sample.library)
             (Sample.world_with Sample.green_frame (-33) (-32))
             {| now := 1; inbox := [] |} [TriggerCapture]
             (Sample.capture_response Sample.green_frame (-33) (-32))
             (JStr Sample.green_frame)
             (capture_in_world_at _ _ _))) sample_library_accurate (-33) (-32))%Z.
    + apply reports_capture_response.
    + vm_compute. reflexivity.
  - apply (proj1 (proj2 (goal_reached_stops (lib := Sample.library)
             (Sample.world_at Sample.green_frame
                (PyFloat (b64_of_Z (-33))) (PyFloat (b64_of_Z (-32))))
             {| now := 1; inbox := [] |} [TriggerCapture]
             (Sample.capture_response_at Sample.green_frame
                (PyFloat (b64_of_Z (-33))) (PyFloat (b64_of_Z (-32))))
             (JStr Sample.green_frame)
             (capture_in_world_at _ _ _))) (b64_of_Z (-33)) (b64_of_Z (-32))).
    + apply reports_capture_response.
    + vm_compute. reflexivity.
    + vm_compute. reflexivity.
Defined.

(** [act_on_verdict] at the ints (0, 0): facing green the robot turns,
    facing blue it steps forward and re-orients; and at the floats
    [(edge_x, edge_z)], where the computed distance is 5.0, it goes on. *)
Lemma act_on_verdict_witness :
  (cycle (lib := Sample.library) (Sample.world_with Sample.green_frame 0 0) =
     ([TriggerCapture] ++ [] ++ obstacle_events,
      advance (advance {| now := 1; inbox := [] |} 2) 1, Ok LoopContinue) /\
   commands (fst (fst (cycle (lib := Sample.library)
                         (Sample.world_with Sample.green_frame 0 0)))) =
     [TriggerCapture; MoveRelative 20 5]) /\
  (cycle (lib := Sample.library) (Sample.world_with Sample.blue_frame 0 0) =
     ([TriggerCapture] ++ [] ++ clear_events,
      advance (advance {| now := 1; inbox := [] |} 1) 1, Ok LoopContinue) /\
   commands (fst (fst (cycle (lib := Sample.library)
                         (Sample.world_with Sample.blue_frame 0 0)))) =
     [TriggerCapture; MoveRelative 0 10; MoveAbsolute GOAL_POSITION]) /\
  acts_on_verdict (lib := Sample.library)
    (Sample.world_at Sample.blue_frame (PyFloat Sample.edge_x) (PyFloat Sample.edge_z))
    {| now := 1; inbox := [] |} (JStr Sample.blue_frame).
Proof.
  split; [|split].
  - apply (proj2 (proj2 (act_on_verdict (lib := Sample.library)
             (Sample.world_with Sample.green_frame 0 0)
             {| now := 1; inbox := [] |} [TriggerCapture]
             (Sample.capture_response Sample.green_frame 0 0)
             (JStr Sample.green_frame)
             (capture_in_world_at _ _ _))) sample_library_accurate 0 0)%Z.
    + apply reports_capture_response.
    + lia.
    + lia.
    + vm_compute. discriminate.
    + vm_compute. reflexivity.
  - apply (proj2 (proj2 (act_on_verdict (lib := Sample.library)
             (Sample.world_with Sample.blue_frame 0 0)
             {| now := 1; inbox := [] |} [TriggerCapture]
             (Sample.capture_response Sample.blue_frame 0 0)
             (JStr Sample.blue_frame)
             (capture_in_world_at _ _ _))) sample_library_accurate 0 0)%Z.
    + apply reports_capture_response.
    + lia.
    + lia.
    + vm_compute. discriminate.
    + vm_compute. reflexivity.
  - apply (proj1 (proj2 (act_on_verdict (lib := Sample.library)
             (Sample.world_at Sample.blue_frame
                (PyFloat Sample.edge_x) (PyFloat Sample.edge_z))
             {| now := 1; inbox := [] |} [TriggerCapture]
             (Sample.capture_response_at Sample.blue_frame
                (PyFloat Sample.edge_x) (PyFloat Sample.edge_z))
             (JStr Sample.blue_frame)
             (capture_in_world_at _ _ _))) Sample.edge_x Sample.edge_z).
    + apply reports_capture_response.
    + vm_compute. reflexivity.
    + vm_compute. reflexivity.
Defined.


(** What the sample library computes at (0, 0), at (-32, -31) and at
    (-33, -32): the floats 49.49747468305833, 5.0 and 3.605551275463989. *)
Example sample_distances :
  distance_to_goal (lib := Sample.library) (position_at (PyInt 0) (PyInt 0)) =
    Ok (PyFloat (S754_finite false 6966150266825064 (-47))) /\
  distance_to_goal (lib := Sample.library) (position_at (PyInt (-32)) (PyInt (-31))) =
    Ok (PyFloat (S754_finite false 5629499534213120 (-50))) /\
  distance_to_goal (lib := Sample.library) (position_at (PyInt (-33)) (PyInt (-32))) =
    Ok (PyFloat (S754_finite false 8118979690322419 (-51))).
Proof. repeat split; vm_compute; reflexivity. Qed.
(** [classifier_threshold] on the green frame (fraction 1) and the blue one (fraction 0). *)
Lemma classifier_threshold_witness :
  (snd (analyze_image (lib := Sample.library) (JStr Sample.green_frame)) = true <->
   (1 # 1000 < green_fraction Sample.green_bgr Sample.green_hsv)%Q) /\
  (snd (analyze_image (lib := Sample.library) (JStr Sample.blue_frame)) = true ->
   snd (analyze_image (lib := Sample.library) (JStr Sample.green_frame)) = true).
Proof.
  split.
  - apply (classifier_threshold (lib := Sample.library)
             Sample.green_frame Sample.green_bgr Sample.green_hsv).
    + apply green_frame_decodes.
    + vm_compute. lia.
  - apply (proj2 (classifier_threshold (lib := Sample.library)
                    Sample.blue_frame Sample.blue_bgr Sample.blue_hsv
                    blue_frame_decodes (Nat.lt_0_succ 0))
                 Sample.green_frame Sample.green_bgr Sample.green_hsv).
    + apply green_frame_decodes.
    + vm_compute. lia.
    + vm_compute. discriminate.
Defined.

(** [decode_failure_fails_open] on a PPM image cut short. *)
Lemma decode_failure_fails_open_witness :
  exists cause,
    analyze_image_try (lib := Sample.library) (JStr Sample.truncated_frame) = Raise cause /\
    analyze_image (lib := Sample.library) (JStr Sample.truncated_frame) =
      ([Print ("Error analyzing image: " ++ exn_str cause)], false).
Proof.
  apply (decode_failure_fails_open (lib := Sample.library) Sample.truncated_frame).
  vm_compute. exact I.
Defined.

(** [green_mask_band] on the pixel (60, 50, 50) and on the green and blue frames. *)
Lemma green_mask_band_witness :
  (selected {| ch0 := 60; ch1 := 50; ch2 := 50 |} = true <->
   (35 <= 60 <= 85 /\ 50 <= 50 /\ 50 <= 50)%Z) /\
  snd (analyze_image (lib := Sample.library) (JStr Sample.green_frame)) = true /\
  snd (analyze_image (lib := Sample.library) (JStr Sample.blue_frame)) = false.
Proof.
  destruct (green_mask_band (lib := Sample.library)) as [Hpixel Himage].
  split; [|split].
  - apply (Hpixel {| ch0 := 60; ch1 := 50; ch2 := 50 |}).
    unfold uint8_pixel, uint8. simpl. lia.
  - apply (Himage Sample.green_frame Sample.green_bgr Sample.green_hsv).
    + apply green_frame_decodes.
    + vm_compute. lia.
    + reflexivity.
    + repeat constructor; simpl; lia.
  - apply (Himage Sample.blue_frame Sample.blue_bgr Sample.blue_hsv).
    + apply blue_frame_decodes.
    + vm_compute. lia.
    + reflexivity.
    + repeat constructor. simpl. lia.
Defined.

(** [analyze_image_total]: the green frame is an obstacle; five characters
    of base64 data are refused; cut short, the green frame is no image; and
    an array without elements, as [lenient_library] decodes [empty_frame]
    to, is refused before any division. *)
Lemma analyze_image_total_witness :
  snd (analyze_image (lib := Sample.library) (JStr Sample.green_frame)) = true /\
  analyze_image (lib := Sample.library) (JStr "data:,abcde") =
    ([Print ("Error analyzing image: " ++
             "Invalid base64-encoded string: number of data characters (5) cannot be 1 more than a multiple of 4")],
     false) /\
  (exists cause,
      analyze_image (lib := Sample.library) (JStr Sample.truncated_frame) =
        ([Print ("Error analyzing image: " ++ exn_str cause)], false)) /\
  (exists cause,
      analyze_image (lib := Sample.lenient_library) (JStr Sample.empty_frame) =
        ([Print ("Error analyzing image: " ++ exn_str cause)], false)).
Proof.
  split; [|split; [|split]].
  - apply (proj1 (analyze_image_total (lib := Sample.library) Sample.green_frame)).
    exists Sample.green_bgr, Sample.green_hsv.
    split; [exact green_frame_decodes|].
    split; [discriminate|vm_compute; reflexivity].
  - apply (proj1 (proj2 (analyze_image_total (lib := Sample.library) "data:,abcde"))
             "data:" "abcde"
             (Sample.binascii_Error
                "Invalid base64-encoded string: number of data characters (5) cannot be 1 more than a multiple of 4")).
    + reflexivity.
    + vm_compute. reflexivity.
  - eapply (proj1 (proj2 (proj2 (analyze_image_total (lib := Sample.library)
                                   Sample.truncated_frame)))).
    + vm_compute. reflexivity.
    + vm_compute. reflexivity.
    + vm_compute. reflexivity.
  - eapply (proj2 (proj2 (proj2 (analyze_image_total (lib := Sample.lenient_library)
                                   Sample.empty_frame)))).
    + vm_compute. reflexivity.
    + vm_compute. reflexivity.
    + vm_compute. reflexivity.
    + reflexivity.
    + intros hsv Hhsv. vm_compute in Hhsv. discriminate Hhsv.
Defined.

(** [capture_timeout_retries] in the silent world. *)
Lemma capture_timeout_retries_witness :
  cycle (lib := Sample.library) Sample.silent_world =
    (retry_events, advance {| now := 0 + 5; inbox := [] |} 1, Ok LoopContinue) /\
  commands retry_events = [TriggerCapture] /\
  count is_move retry_events = 0%nat /\
  count is_stop retry_events = 0%nat.
Proof.
  apply (proj1 (capture_timeout_retries (lib := Sample.library))
           Sample.silent_world {| now := 0 + 5; inbox := [] |}
           [TriggerCapture; Print "Timeout waiting for image response."]).
  reflexivity.
Defined.

(** A whole run: a status message is skipped, the first frame shows a clear
    path at (0, 0), the second is taken within reach of the goal. *)
Example run_to_goal :
  main (lib := Sample.library) 3
       {| now := 0;
          inbox := [(1, Message Sample.status_message);
                    (2, Message (Sample.capture_response Sample.gray_frame 0 0));
                    (4.5, Message (Sample.capture_response Sample.gray_frame (-33) (-32)))] |} =
  ([Print "🤖 Autonomous Robot Controller started.";
    Print "🎯 Goal set to: {'x': -35, 'z': -35}";
    SetGoal GOAL_POSITION;
    Print "Goal position sent to simulator.";
    TriggerCapture]
   ++ clear_events
   ++ [TriggerCapture] ++ goal_reached_events,
   {| now := 4.5; inbox := [] |}, Ok GoalReached).
Proof. vm_compute. reflexivity. Qed.

(** * Further properties of the controller *)

(** ** Reading a frame *)

Section FrameFacts.

Context {lib : Libraries}.

Lemma read_frame_ok (response image_data : json) (distance : pynum) :
  read_frame response = Ok (image_data, distance) <-> frame_of response image_data distance.
Proof.
  unfold read_frame, frame_of. split.
  - destruct (py_getitem response "image") as [i|] eqn:Hi; cbn [rbind]; [|discriminate].
    destruct (py_getitem response "position") as [p|] eqn:Hp; cbn [rbind]; [|discriminate].
    destruct (distance_to_goal p) as [d|] eqn:Hd; cbn [rbind]; [|discriminate].
    intro H. inversion H; subst. split; [reflexivity|].
    exists p. split; [reflexivity | assumption].
  - intros (Hi & p & Hp & Hd).
    rewrite Hi. cbn [rbind]. rewrite Hp. cbn [rbind]. rewrite Hd. reflexivity.
Qed.

Lemma py_getitem_raises (obj : json) (key : string) (e : exn) :
  py_getitem obj key = Raise e -> frame_error e.
Proof.
  destruct obj; simpl; try (intro H; inversion H; exact I).
  destruct (dict_get fields key); intro H; inversion H; exact I.
Qed.

Lemma float_of_int_raises (n : Z) (e : exn) :
  float_of_int n = Raise e -> frame_error e.
Proof.
  unfold float_of_int. destruct (b64_of_Z n); intro H; inversion H; exact I.
Qed.

Lemma py_sub_int_raises (v : json) (c : Z) (e : exn) :
  py_sub_int v c = Raise e -> frame_error e.
Proof.
  destruct v as [| |[n|f]| | |]; simpl; try (intro H; inversion H; exact I).
  destruct (float_of_int c) as [fc|e'] eqn:Hc; cbn [rbind]; [discriminate|].
  intro H. inversion H; subst. exact (float_of_int_raises _ _ Hc).
Qed.

Lemma float_square_raises (f : float) (e : exn) :
  float_square f = Raise e -> frame_error e.
Proof.
  unfold float_square.
  destruct (square_overflows f); intro H; inversion H; exact I.
Qed.

Lemma float_root_raises (f : float) (e : exn) :
  float_root f = Raise e -> frame_error e.
Proof.
  unfold float_root.
  destruct (is_negative f); [intro H; inversion H; exact I|].
  destruct (root_overflows f); intro H; inversion H; exact I.
Qed.

Lemma py_square_raises (a : pynum) (e : exn) :
  py_square a = Raise e -> frame_error e.
Proof.
  destruct a as [n|f]; simpl; [discriminate|].
  destruct (float_square f) as [r|e'] eqn:Hf; cbn [rbind]; [discriminate|].
  intro H. inversion H; subst. exact (float_square_raises _ _ Hf).
Qed.

Lemma py_add_raises (a b : pynum) (e : exn) :
  py_add a b = Raise e -> frame_error e.
Proof.
  destruct a as [m|f], b as [n|g]; simpl; try discriminate.
  - destruct (float_of_int m) as [r|e'] eqn:Hf; cbn [rbind]; [discriminate|].
    intro H. inversion H; subst. exact (float_of_int_raises _ _ Hf).
  - destruct (float_of_int n) as [r|e'] eqn:Hf; cbn [rbind]; [discriminate|].
    intro H. inversion H; subst. exact (float_of_int_raises _ _ Hf).
Qed.

Lemma py_root_raises (a : pynum) (e : exn) :
  py_root a = Raise e -> frame_error e.
Proof.
  destruct a as [n|f]; simpl.
  - destruct (float_of_int n) as [r|e'] eqn:Hf; cbn [rbind].
    + destruct (float_root r) as [r'|e'] eqn:Hr; cbn [rbind]; [discriminate|].
      intro H. inversion H; subst. exact (float_root_raises _ _ Hr).
    + intro H. inversion H; subst. exact (float_of_int_raises _ _ Hf).
  - destruct (float_root f) as [r'|e'] eqn:Hr; cbn [rbind]; [discriminate|].
    intro H. inversion H; subst. exact (float_root_raises _ _ Hr).
Qed.

Lemma distance_to_goal_raises (robot_pos : json) (e : exn) :
  distance_to_goal robot_pos = Raise e -> frame_error e.
Proof.
  unfold distance_to_goal.
  destruct (py_getitem robot_pos "x") as [xv|] eqn:Hx; cbn [rbind];
    [|intro H; inversion H; subst; exact (py_getitem_raises _ _ _ Hx)].
  destruct (py_sub_int xv (pos_x GOAL_POSITION)) as [dx|] eqn:Hdx; cbn [rbind];
    [|intro H; inversion H; subst; exact (py_sub_int_raises _ _ _ Hdx)].
  destruct (py_square dx) as [dx2|] eqn:Hdx2; cbn [rbind];
    [|intro H; inversion H; subst; exact (py_square_raises _ _ Hdx2)].
  destruct (py_getitem robot_pos "z") as [zv|] eqn:Hz; cbn [rbind];
    [|intro H; inversion H; subst; exact (py_getitem_raises _ _ _ Hz)].
  destruct (py_sub_int zv (pos_z GOAL_POSITION)) as [dz|] eqn:Hdz; cbn [rbind];
    [|intro H; inversion H; subst; exact (py_sub_int_raises _ _ _ Hdz)].
  destruct (py_square dz) as [dz2|] eqn:Hdz2; cbn [rbind];
    [|intro H; inversion H; subst; exact (py_square_raises _ _ Hdz2)].
  destruct (py_add dx2 dz2) as [radicand|] eqn:Hadd; cbn [rbind];
    [|intro H; inversion H; subst; exact (py_add_raises _ _ _ Hadd)].
  apply py_root_raises.
Qed.

Lemma read_frame_raises (response : json) (e : exn) :
  read_frame response = Raise e -> frame_error e.
Proof.
  unfold read_frame.
  destruct (py_getitem response "image") as [i|] eqn:Hi; cbn [rbind];
    [|intro H; inversion H; subst; exact (py_getitem_raises _ _ _ Hi)].
  destruct (py_getitem response "position") as [p|] eqn:Hp; cbn [rbind];
    [|intro H; inversion H; subst; exact (py_getitem_raises _ _ _ Hp)].
  destruct (distance_to_goal p) as [d|] eqn:Hd; cbn [rbind];
    [discriminate|intro H; inversion H; subst; exact (distance_to_goal_raises _ _ Hd)].
Qed.

End FrameFacts.

Section TurnFacts.

Context {lib : Libraries}.

(** A turn, by the outcome of its capture and of reading the frame. *)
Lemma cycle_unfold (w : world) :
  cycle w =
  match capture_image_from_server w with
  | (evs, w1, Raise e) => (evs, w1, Raise e)
  | (evs, w1, Ok None) =>
      (evs ++ [Print "Failed to get image. Retrying..."; Sleep 1],
       advance w1 1, Ok LoopContinue)
  | (evs, w1, Ok (Some response)) =>
      match read_frame response with
      | Raise e => (evs, w1, Raise e)
      | Ok (image_data, distance) =>
          if py_lt_int distance GOAL_THRESHOLD
          then (evs ++ goal_reached_events, w1, Ok LoopBreak)
          else if snd (analyze_image image_data)
               then (evs ++ fst (analyze_image image_data) ++ obstacle_events,
                     advance (advance w1 2) 1, Ok LoopContinue)
               else (evs ++ fst (analyze_image image_data) ++ clear_events,
                     advance (advance w1 1) 1, Ok LoopContinue)
      end
  end.
Proof.
  destruct (capture_image_from_server w) as [[evs w1] [[response|]|e]] eqn:Hcap.
  - destruct (read_frame response) as [[image_data distance]|e] eqn:Hread.
    + apply read_frame_ok in Hread. apply (cycle_frame _ _ _ _ _ _ Hcap Hread).
    + pose proof (capture_events _ _ _ _ Hcap) as Hevs. cbn in Hevs. subst evs.
      unfold cycle, io_bind. rewrite Hcap. unfold lift.
      unfold read_frame in Hread.
      destruct (py_getitem response "image") as [i|] eqn:Hi; cbn [rbind] in Hread;
        [|inversion Hread; reflexivity].
      destruct (py_getitem response "position") as [p|] eqn:Hp; cbn [rbind] in Hread;
        [|inversion Hread; reflexivity].
      destruct (distance_to_goal p) as [d|] eqn:Hd;
        cbn [rbind] in Hread; [discriminate|inversion Hread; reflexivity].
  - apply (cycle_timeout _ _ _ Hcap).
  - unfold cycle, io_bind. rewrite Hcap. reflexivity.
Qed.

Lemma main_loop_step (n : nat) (w : world) :
  main_loop (S n) w =
  match cycle w with
  | (evs, w1, Ok LoopContinue) =>
      match main_loop n w1 with
      | (evs', w2, r) => (evs ++ evs', w2, r)
      end
  | (evs, w1, Ok LoopBreak) => (evs, w1, Ok GoalReached)
  | (evs, w1, Raise e) => (evs, w1, Raise e)
  end.
Proof.
  cbn [main_loop]. unfold io_bind at 1.
  destruct (cycle w) as [[evs w1] [[|]|e]]; try reflexivity.
  unfold io_ret. rewrite app_nil_r. reflexivity.
Qed.

Lemma main_unfold (turns : nat) (w : world) :
  main turns w =
  match main_loop turns w with
  | (evs, w', r) =>
      ([Print "🤖 Autonomous Robot Controller started.";
        Print "🎯 Goal set to: {'x': -35, 'z': -35}";
        SetGoal GOAL_POSITION;
        Print "Goal position sent to simulator."] ++ evs, w', r)
  end.
Proof.
  unfold main, io_bind, print, post.
  destruct (main_loop turns w) as [[evs w'] r]. reflexivity.
Qed.

(** X1. A message that arrives in time and is no JSON, is JSON but no
    object, or is the loss of the connection is not skipped: the exception
    leaves the capture, the turn and the loop.  The run ends there with the
    goal and the capture trigger as its only commands; no Stop is sent. *)
Theorem bad_message_is_fatal (clock arrival : Q) (item : ws_item)
        (rest : list (Q * ws_item)) (e : exn) (n : nat) :
  (arrival < clock + 5)%Q ->
  recv_failure item = Some e ->
  main (S n) {| now := clock; inbox := (arrival, item) :: rest |} =
    ([Print "🤖 Autonomous Robot Controller started.";
      Print "🎯 Goal set to: {'x': -35, 'z': -35}";
      SetGoal GOAL_POSITION;
      Print "Goal position sent to simulator.";
      TriggerCapture],
     {| now := Qmax clock arrival; inbox := rest |}, Raise e) /\
  e <> TimeoutError.
Proof.
  intros Hlt Hfail.
  assert (Hne : e <> TimeoutError).
  { destruct item as [data| |]; simpl in Hfail.
    - destruct data; simpl in Hfail; inversion Hfail; discriminate.
    - inversion Hfail. discriminate.
    - inversion Hfail. discriminate. }
  split; [|exact Hne].
  assert (Hcap : capture_image_from_server
                   {| now := clock; inbox := (arrival, item) :: rest |} =
                 ([TriggerCapture],
                  {| now := Qmax clock arrival; inbox := rest |}, Raise e)).
  { rewrite capture_unfold. cbn [inbox now recv_until_response].
    apply Qltb_iff in Hlt. rewrite Hlt.
    destruct item as [data| |]; simpl in Hfail.
    - destruct (py_get data "type") as [ty|e']; [discriminate|].
      inversion Hfail; subst. destruct e; try reflexivity. contradiction.
    - inversion Hfail; subst. reflexivity.
    - inversion Hfail; subst. reflexivity. }
  rewrite main_unfold, main_loop_step, cycle_unfold, Hcap. reflexivity.
Qed.

(** X2. A capture response from which lines 90-94 get no frame (no image
    entry, no position, a coordinate that is missing or no number, or a
    coordinate so large that its square overflows) ends the run with a
    KeyError, a TypeError or an OverflowError right after the capture
    trigger: nothing is classified and no movement or stop command is
    sent. *)
Theorem unreadable_response_is_fatal (w w1 : world) (evs : list event)
        (response : json) :
  capture_image_from_server w = (evs, w1, Ok (Some response)) ->
  (forall image_data distance, ~ frame_of response image_data distance) ->
  exists e,
    match e with
    | KeyError _ | TypeError _ | OverflowError _ => True
    | _ => False
    end /\
    read_frame response = Raise e /\
    forall n, main_loop (S n) w = ([TriggerCapture], w1, Raise e).
Proof.
  intros Hcap Hno.
  destruct (read_frame response) as [[image_data distance]|e] eqn:Hread.
  - apply read_frame_ok in Hread. destruct (Hno _ _ Hread).
  - exists e. split; [exact (read_frame_raises _ _ Hread)|].
    split; [reflexivity|].
    intro n. rewrite main_loop_step, cycle_unfold, Hcap, Hread.
    pose proof (capture_events _ _ _ _ Hcap) as Hevs. cbn in Hevs. subst evs.
    reflexivity.
Qed.

Lemma unclassifiable_raises (image_data : json) :
  unclassifiable image_data ->
  exists cause,
    analyze_image_try image_data = Raise cause /\
    ((forall s, image_data <> JStr s) -> cause = no_attribute image_data "split").
Proof.
  destruct image_data as [|b|n|s|items|fields]; intro Hu;
    try (eexists; split; [reflexivity|]; intros; reflexivity).
  destruct (undecodable_raises s Hu) as [cause Hc].
  exists cause. split; [exact Hc|]. intro Hs. destruct (Hs s eq_refl).
Qed.

(** X3. Failing open has a consequence for motion: when the image of a
    frame whose computed distance is not below the threshold cannot be
    classified (an undecodable payload, or an image entry that is no
    string, for which the cause is the missing [split]), the turn prints
    the error and then does what it does on a clear path: it steps forward
    by 10 and heads for the goal. *)
Theorem unclassifiable_frame_steps_forward (w w1 : world) (evs : list event)
        (response image_data : json) (distance : pynum) :
  capture_image_from_server w = (evs, w1, Ok (Some response)) ->
  frame_of response image_data distance ->
  py_lt_int distance GOAL_THRESHOLD = false ->
  unclassifiable image_data ->
  exists cause,
    analyze_image_try image_data = Raise cause /\
    ((forall s, image_data <> JStr s) -> cause = no_attribute image_data "split") /\
    cycle w =
      ([TriggerCapture; Print ("Error analyzing image: " ++ exn_str cause)] ++ clear_events,
       advance (advance w1 1) 1, Ok LoopContinue).
Proof.
  intros Hcap Hframe Hfar Hu.
  destruct (unclassifiable_raises _ Hu) as (cause & Hraise & Hns).
  exists cause. split; [exact Hraise|]. split; [exact Hns|].
  pose proof (capture_events _ _ _ _ Hcap) as Hevs. cbn in Hevs. subst evs.
  rewrite (cycle_frame _ _ _ _ _ _ Hcap Hframe), Hfar.
  rewrite (analyze_image_raised _ _ Hraise). reflexivity.
Qed.

(** As [cycle_emits], with the two sleeps the source uses. *)
Lemma cycle_emits_paced (P : event -> Prop) :
  (forall line, P (Print line)) -> P (Sleep 1) -> P (Sleep 2) ->
  P TriggerCapture -> P Stop ->
  P (MoveRelative 20 5) -> P (MoveRelative 0 10) -> P (MoveAbsolute GOAL_POSITION) ->
  emits_only P cycle.
Proof.
  intros Hp Hs1 Hs2 Hc Hstop Hturn Hstep Hmove w.
  rewrite cycle_unfold.
  pose proof (emits_only_capture P Hc Hp w) as Hcap.
  destruct (capture_image_from_server w) as [[evs w1] [[response|]|e]]; cbn [fst] in *.
  - destruct (read_frame response) as [[image_data distance]|e]; [|exact Hcap].
    assert (Hlog : Forall P (fst (analyze_image image_data))).
    { eapply Forall_impl; [|apply analyze_image_log]. intros e [line ->]. apply Hp. }
    destruct (py_lt_int distance GOAL_THRESHOLD); [|destruct (snd (analyze_image image_data))];
      cbn [fst]; repeat (apply Forall_app; split); try assumption;
      unfold goal_reached_events, obstacle_events, clear_events;
      repeat constructor; auto.
  - apply Forall_app. split; [assumption|]. repeat constructor; auto.
  - exact Hcap.
Qed.

Lemma main_loop_emits_paced (P : event -> Prop) (turns : nat) :
  (forall line, P (Print line)) -> P (Sleep 1) -> P (Sleep 2) ->
  P TriggerCapture -> P Stop ->
  P (MoveRelative 20 5) -> P (MoveRelative 0 10) -> P (MoveAbsolute GOAL_POSITION) ->
  emits_only P (main_loop turns).
Proof.
  intros Hp Hs1 Hs2 Hc Hstop Hturn Hstep Hmove.
  induction turns as [|n IH]; intro w.
  - constructor.
  - rewrite main_loop_step.
    pose proof (cycle_emits_paced P Hp Hs1 Hs2 Hc Hstop Hturn Hstep Hmove w) as Hcy.
    destruct (cycle w) as [[evs w1] [[|]|e]]; cbn [fst] in *; try assumption.
    specialize (IH w1). destruct (main_loop n w1) as [[evs' w2] r]. cbn [fst] in *.
    apply Forall_app. split; assumption.
Qed.

(** X4. Whatever the simulator sends and however long the run lasts, it
    emits only prints, sleeps of 1 or 2, and six commands: SetGoal(goal),
    the capture trigger, Stop, MoveRelative(20, 5), MoveRelative(0, 10) and
    MoveAbsolute(goal).  No other endpoint, step, angle or target is used. *)
Theorem only_expected_events (turns : nat) (w : world) :
  Forall expected_event (fst (fst (main turns w))).
Proof.
  rewrite main_unfold.
  assert (Hloop : Forall expected_event (fst (fst (main_loop turns w)))).
  { apply main_loop_emits_paced.
    - intro. exact I.
    - left. reflexivity.
    - right. reflexivity.
    - right. left. reflexivity.
    - right. right. left. reflexivity.
    - do 3 right. left. reflexivity.
    - do 4 right. left. reflexivity.
    - do 5 right. reflexivity. }
  destruct (main_loop turns w) as [[evs w'] r]. cbn [fst] in *.
  repeat (constructor; [first [exact I | left; reflexivity]|]).
  exact Hloop.
Qed.

End TurnFacts.

(** ** Invariants of a run *)

Lemma count_app (p : event -> bool) (a b : list event) :
  count p (a ++ b) = (count p a + count p b)%nat.
Proof. unfold count. rewrite filter_app, length_app. reflexivity. Qed.

Lemma capture_moves_forward (w w1 : world) (evs : list event) (r : result (option json)) :
  capture_image_from_server w = (evs, w1, r) ->
  (now w <= now w1)%Q /\ exists received, inbox w = received ++ inbox w1.
Proof.
  rewrite capture_unfold.
  destruct (recv_until_response (inbox w) (now w)) as [[r0 clock] pending] eqn:Hr.
  apply recv_until_response_spec in Hr.
  destruct Hr as (received & Hrec & Hle & _).
  intro H.
  assert (Hw : w1 = {| now := clock; inbox := pending |})
    by (destruct r0 as [d|e]; [|destruct e]; inversion H; reflexivity).
  subst w1. cbn [now inbox]. split; [assumption|]. exists received. assumption.
Qed.

Section RunFacts.

Context {lib : Libraries}.

Lemma count_log (p : event -> bool) (v : json) :
  (forall line, p (Print line) = false) ->
  count p (fst (analyze_image v)) = 0%nat.
Proof.
  intro Hp. unfold count. rewrite filter_none; [reflexivity|].
  eapply Forall_impl; [|apply analyze_image_log]. intros e [line ->]. apply Hp.
Qed.

(** The shape of one turn: it starts with the capture trigger and sends no
    other; it reaches Stop only by leaving the loop; it sends at most three
    commands. *)
Lemma cycle_shape (w w' : world) (evs : list event) (r : result loop_ctl) :
  cycle w = (evs, w', r) ->
  exists rest,
    evs = TriggerCapture :: rest /\
    count is_capture rest = 0%nat /\
    (r = Ok LoopBreak -> rest = goal_reached_events) /\
    (r <> Ok LoopBreak -> count is_stop rest = 0%nat) /\
    (List.length (commands evs) <= 3)%nat.
Proof.
  rewrite cycle_unfold.
  destruct (capture_image_from_server w) as [[cevs w1] cr] eqn:Hcap.
  pose proof (capture_events _ _ _ _ Hcap) as Hevs.
  destruct cr as [[response|]|e]; cbn in Hevs; subst cevs.
  - destruct (read_frame response) as [[image_data distance]|e].
    + pose proof (count_log is_capture image_data (fun _ => eq_refl)) as Hc.
      pose proof (count_log is_stop image_data (fun _ => eq_refl)) as Hs.
      pose proof (analyze_image_no_command image_data) as Hn.
      destruct (py_lt_int distance GOAL_THRESHOLD); [|destruct (snd (analyze_image image_data))];
        intro H; inversion H; subst; eexists; (split; [reflexivity|]);
        rewrite ?count_app, ?Hc, ?Hs;
        (repeat split; try reflexivity; try congruence; try discriminate);
        cbn [app]; unfold commands; cbn [filter is_post TriggerCapture];
        fold (commands (fst (analyze_image image_data) ++ obstacle_events));
        fold (commands (fst (analyze_image image_data) ++ clear_events));
        rewrite ?commands_app, ?Hn; cbn; lia.
    + intro H; inversion H; subst. exists []. repeat split; try discriminate; cbn; lia.
  - intro H; inversion H; subst. eexists. split; [reflexivity|].
    repeat split; try discriminate; cbn; lia.
  - intro H; inversion H; subst. exists []. repeat split; try discriminate; cbn; lia.
Qed.

Lemma cycle_moves_forward (w w' : world) (evs : list event) (r : result loop_ctl) :
  cycle w = (evs, w', r) ->
  (now w <= now w')%Q /\
  (exists received, inbox w = received ++ inbox w') /\
  (r = Ok LoopContinue -> now w + 1 <= now w')%Q.
Proof.
  rewrite cycle_unfold.
  destruct (capture_image_from_server w) as [[cevs w1] cr] eqn:Hcap.
  apply capture_moves_forward in Hcap. destruct Hcap as [Hle Hsuf].
  assert (Hdone : forall (es : list event) (c : result loop_ctl),
             (es, w1, c) = (evs, w', r) -> c <> Ok LoopContinue ->
             (now w <= now w')%Q /\
             (exists received, inbox w = received ++ inbox w') /\
             (r = Ok LoopContinue -> now w + 1 <= now w')%Q).
  { intros es c H Hc. inversion H; subst.
    split; [assumption|]. split; [assumption|]. intro E. destruct (Hc E). }
  assert (Hgo : forall (es : list event) (k : Q),
             (0 <= k)%Q ->
             (es, advance (advance w1 k) 1, Ok LoopContinue) = (evs, w', r) ->
             (now w <= now w')%Q /\
             (exists received, inbox w = received ++ inbox w') /\
             (r = Ok LoopContinue -> now w + 1 <= now w')%Q).
  { intros es k Hk H. inversion H; subst. unfold advance; cbn [now inbox].
    split; [Lqa.lra|]. split; [assumption|]. intros _. Lqa.lra. }
  destruct cr as [[response|]|e].
  - destruct (read_frame response) as [[image_data distance]|e].
    + destruct (py_lt_int distance GOAL_THRESHOLD); [|destruct (snd (analyze_image image_data))].
      * intro H. eapply Hdone; [exact H | discriminate].
      * intro H. eapply (Hgo _ 2%Q); [Lqa.lra | exact H].
      * intro H. eapply (Hgo _ 1%Q); [Lqa.lra | exact H].
    + intro H. eapply Hdone; [exact H | discriminate].
  - intro H. inversion H; subst. unfold advance; cbn [now inbox].
    split; [Lqa.lra|]. split; [assumption|]. intros _. Lqa.lra.
  - intro H. eapply Hdone; [exact H | discriminate].
Qed.

Lemma count_after_capture (p : event -> bool) (rest : list event) :
  p TriggerCapture = false -> count p (TriggerCapture :: rest) = count p rest.
Proof. intro H. unfold count. cbn [filter]. rewrite H. reflexivity. Qed.

(** X5. Stop is sent only by a run that reaches the goal, once, and it is
    the last thing the run does: a run that ends through [break] ends with
    the goal-reached print and Stop and has no Stop before them; a run that
    is still going or that died of an exception has sent no Stop at all. *)
Theorem stop_ends_the_run (turns : nat) :
  forall w evs w' r,
    main_loop turns w = (evs, w', r) ->
    (r = Ok GoalReached ->
     exists before, evs = before ++ goal_reached_events /\
                    count is_stop before = 0%nat) /\
    (r <> Ok GoalReached -> count is_stop evs = 0%nat).
Proof.
  induction turns as [|n IH]; intros w evs w' r.
  - cbn. intro H. inversion H; subst. split; [discriminate | reflexivity].
  - rewrite main_loop_step.
    destruct (cycle w) as [[cevs w1] cr] eqn:Hcy.
    destruct (cycle_shape _ _ _ _ Hcy) as (rest & Hev & _ & Hbreak & Hnostop & _).
    destruct cr as [[|]|e].
    + destruct (main_loop n w1) as [[evs' w2] r'] eqn:Hrun.
      destruct (IH _ _ _ _ Hrun) as [Hgoal Hother].
      assert (Hc : count is_stop cevs = 0%nat).
      { rewrite Hev, count_after_capture by reflexivity.
        apply Hnostop. discriminate. }
      intro H. inversion H; subst evs w' r. split.
      * intro Hr. destruct (Hgoal Hr) as (before & Hb & Hcount).
        exists (cevs ++ before). split.
        -- rewrite Hb, app_assoc. reflexivity.
        -- rewrite count_app, Hc, Hcount. reflexivity.
      * intro Hr. rewrite count_app, Hc, (Hother Hr). reflexivity.
    + intro H. inversion H; subst evs w' r. split; [|intro E; destruct (E eq_refl)].
      intros _. exists [TriggerCapture]. rewrite Hev, (Hbreak eq_refl).
      split; reflexivity.
    + intro H. inversion H; subst evs w' r. split; [discriminate|].
      intros _. rewrite Hev, count_after_capture by reflexivity.
      apply Hnostop. discriminate.
Qed.

(** X6. Every turn opens with one capture trigger and triggers no other, so
    no second capture is requested before the first has been answered, has
    timed out or has failed; a run of at most [n] turns triggers at most [n]
    captures, and exactly [n] when it is still going. *)
Theorem one_capture_per_turn :
  (forall w, exists rest,
      fst (fst (cycle w)) = TriggerCapture :: rest /\
      count is_capture rest = 0%nat) /\
  (forall n w,
      (count is_capture (fst (fst (main_loop n w))) <= n)%nat /\
      (snd (main_loop n w) = Ok StillRunning ->
       count is_capture (fst (fst (main_loop n w))) = n)).
Proof.
  split.
  - intro w. destruct (cycle w) as [[evs w'] r] eqn:Hcy.
    destruct (cycle_shape _ _ _ _ Hcy) as (rest & Hev & Hc & _).
    exists rest. split; assumption.
  - induction n as [|n IH]; intro w.
    + cbn. split; [lia | reflexivity].
    + rewrite main_loop_step.
      destruct (cycle w) as [[cevs w1] cr] eqn:Hcy.
      destruct (cycle_shape _ _ _ _ Hcy) as (rest & Hev & Hc & _).
      assert (H1 : count is_capture cevs = 1%nat).
      { rewrite Hev. unfold count in *. cbn [filter]. 
        change (is_capture TriggerCapture) with true. cbn [List.length].
        rewrite Hc. reflexivity. }
      destruct cr as [[|]|e]; cbn [fst snd].
      * specialize (IH w1).
        destruct (main_loop n w1) as [[evs' w2] r']. cbn [fst snd] in *.
        rewrite count_app, H1. destruct IH as [Hle Heq].
        split; [lia | intro Hr; rewrite (Heq Hr); reflexivity].
      * split; [lia | discriminate].
      * split; [lia | discriminate].
Qed.

(** X7. The loop is paced: a turn that goes on to the next lasts at least 1
    and sends at most three commands.  So a run of [n] turns has sent at
    most [3 * n] commands, and one that is still going has taken at least
    [n]. *)
Theorem turns_are_paced (n : nat) :
  forall w evs w' r,
    main_loop n w = (evs, w', r) ->
    (List.length (commands evs) <= 3 * n)%nat /\
    (r = Ok StillRunning -> now w + inject_Z (Z.of_nat n) <= now w')%Q.
Proof.
  induction n as [|n IH]; intros w evs w' r.
  - cbn [main_loop]. unfold io_ret. intro H. inversion H; subst.
    split; [cbn; lia|]. intros _. q_arith.
  - rewrite main_loop_step.
    destruct (cycle w) as [[cevs w1] cr] eqn:Hcy.
    destruct (cycle_shape _ _ _ _ Hcy) as (rest & _ & _ & _ & _ & Hlen).
    destruct (cycle_moves_forward _ _ _ _ Hcy) as (_ & _ & Hpace).
    destruct cr as [[|]|e].
    + destruct (main_loop n w1) as [[evs' w2] r'] eqn:Hrun.
      destruct (IH _ _ _ _ Hrun) as [Hcmd Htime].
      intro H. inversion H; subst evs w' r. split.
      * rewrite commands_app, length_app. lia.
      * intro Hr. specialize (Htime Hr). specialize (Hpace eq_refl).
        rewrite inject_succ. Lqa.lra.
    + intro H. inversion H; subst. split; [lia | discriminate].
    + intro H. inversion H; subst. split; [lia | discriminate].
Qed.

(** X8. A run only moves forward: its clock never goes back, and the
    messages left in the channel at its end are a tail of those it started
    with.  What it received, used or dropped, is gone for good and nothing
    is put back. *)
Theorem run_moves_forward (turns : nat) :
  forall w evs w' r,
    main_loop turns w = (evs, w', r) ->
    (now w <= now w')%Q /\ exists received, inbox w = received ++ inbox w'.
Proof.
  induction turns as [|n IH]; intros w evs w' r.
  - cbn. intro H. inversion H; subst. split; [Lqa.lra | exists []; reflexivity].
  - rewrite main_loop_step.
    destruct (cycle w) as [[cevs w1] cr] eqn:Hcy.
    destruct (cycle_moves_forward _ _ _ _ Hcy) as (Hle & [rec1 Hrec1] & _).
    destruct cr as [[|]|e].
    + destruct (main_loop n w1) as [[evs' w2] r'] eqn:Hrun.
      destruct (IH _ _ _ _ Hrun) as (Hle2 & rec2 & Hrec2).
      intro H. inversion H; subst evs w' r. split; [Lqa.lra|].
      exists (rec1 ++ rec2). rewrite Hrec1, Hrec2, app_assoc. reflexivity.
    + intro H. inversion H; subst. split; [assumption | exists rec1; assumption].
    + intro H. inversion H; subst. split; [assumption | exists rec1; assumption].
Qed.

End RunFacts.

(** ** The data URL *)

Lemma split_once_joins (sep : ascii) (s : string) :
  forall header rest,
    split_once sep s = Some (header, rest) ->
    s = (header ++ String sep rest)%string /\ contains sep header = false.
Proof.
  induction s as [|c s IH]; intros header rest; simpl; [discriminate|].
  destruct (Ascii.eqb c sep) eqn:E.
  - intro H. inversion H; subst. apply Ascii.eqb_eq in E. subst c.
    split; reflexivity.
  - destruct (split_once sep s) as [[h t]|]; [|discriminate].
    intro H. inversion H; subst. destruct (IH _ _ eq_refl) as [Hs Hc].
    split; [simpl; rewrite <- Hs; reflexivity|].
    simpl. rewrite E, Hc. reflexivity.
Qed.

Lemma split_once_first (sep : ascii) (header rest : string) :
  contains sep header = false ->
  split_once sep (header ++ String sep rest) = Some (header, rest).
Proof.
  induction header as [|c h IH]; simpl.
  - intros _. rewrite Ascii.eqb_refl. reflexivity.
  - intro H. apply orb_false_iff in H. destruct H as [E Hc].
    rewrite E, (IH Hc). reflexivity.
Qed.

Lemma split_once_none (sep : ascii) (s : string) :
  split_once sep s = None <-> contains sep s = false.
Proof.
  induction s as [|c s IH]; simpl; [tauto|].
  destruct (Ascii.eqb c sep); simpl.
  - split; discriminate.
  - destruct (split_once sep s) as [[h t]|].
    + split; [discriminate|]. intro H. apply IH in H. discriminate.
    + split; [intros _; apply IH; reflexivity | reflexivity].
Qed.

(** X9. Splitting a data URL as line 26 does cuts it at its first comma:
    the two parts, joined by a comma, give the URL back and the first part
    has no comma, whatever commas the second part has; and the split fails
    exactly when the URL has no comma at all. *)
Theorem split_at_first_comma (url : string) :
  (forall header encoded,
      split_once "," url = Some (header, encoded) <->
      url = (header ++ String "," encoded)%string /\ contains "," header = false) /\
  (split_once "," url = None <-> contains "," url = false).
Proof.
  split; [|apply split_once_none].
  intros header encoded. split.
  - apply split_once_joins.
  - intros [-> Hc]. apply split_once_first, Hc.
Qed.

Section MoreClassifierFacts.

Context {lib : Libraries}.

(** X10. The header of the data URL plays no part in the verdict: two
    payloads that differ only before the first comma are classified alike,
    error print included. *)
Theorem header_is_ignored (header1 header2 encoded : string) :
  contains "," header1 = false ->
  contains "," header2 = false ->
  analyze_image (JStr (header1 ++ String "," encoded)) =
  analyze_image (JStr (header2 ++ String "," encoded)).
Proof.
  intros H1 H2. unfold analyze_image, analyze_image_try. cbn [rbind].
  rewrite (split_once_first _ _ encoded H1), (split_once_first _ _ encoded H2).
  reflexivity.
Qed.

(** X11. For an image whose converted array has as many pixels as its shape
    says, and at least one, the green percentage is a finite number between
    0 and 100: neither [nan] nor [inf] reaches the comparison. *)
Theorem green_percentage_range (img hsv : image) :
  List.length (pixels hsv) = total_pixels img ->
  (0 < total_pixels img)%nat ->
  exists q, green_percentage img hsv = NpFinite q /\ (0 <= q <= 100)%Q.
Proof.
  intros Hlen Hpos. unfold green_percentage, np_true_divide.
  pose proof (green_pixel_count_le hsv) as Hle. rewrite Hlen in Hle.
  destruct (total_pixels img) as [|n] eqn:Et; [lia|].
  cbn [np_scale]. eexists. split; [reflexivity|].
  set (c := inject_Z (Z.of_nat (green_pixel_count hsv))).
  set (t := inject_Z (Z.of_nat (S n))).
  assert (Hc : (0 <= c)%Q) by apply inject_nonneg.
  assert (Ht : (0 < t)%Q).
  { unfold t. replace 0%Q with (inject_Z 0) by reflexivity.
    rewrite <- Zlt_Qlt. lia. }
  assert (Hct : (c <= t)%Q) by (unfold c, t; rewrite <- Zle_Qle; lia).
  assert (Hdiv : (0 <= c / t <= 1)%Q).
  { split.
    - apply Qle_shift_div_l; [assumption|]. Lqa.lra.
    - apply Qle_shift_div_r; [assumption|]. Lqa.lra. }
  Lqa.lra.
Qed.

(** X15. The verdict counts green pixels and does not look at where they
    are: two decoded frames with the same pixel count whose converted pixels
    are the same up to order get the same verdict. *)
Theorem verdict_ignores_position (img1 hsv1 img2 hsv2 : image) :
  Permutation (pixels hsv1) (pixels hsv2) ->
  total_pixels img1 = total_pixels img2 ->
  verdict img1 hsv1 = verdict img2 hsv2.
Proof.
  intros Hperm Htotal.
  assert (Hcount : green_pixel_count hsv1 = green_pixel_count hsv2).
  { rewrite !green_pixel_count_filter.
    induction Hperm as [|p l l' _ IH|p q l|l l' l'' _ IH1 _ IH2]; simpl.
    - reflexivity.
    - destruct (selected p); simpl; congruence.
    - destruct (selected p), (selected q); reflexivity.
    - congruence. }
  unfold verdict, green_percentage. rewrite Hcount, Htotal. reflexivity.
Qed.

End MoreClassifierFacts.

(** ** Responses and runs *)

Lemma capture_head_response (clock arrival : Q) (data : json)
      (rest : list (Q * ws_item)) :
  (arrival < clock + 5)%Q ->
  is_capture_response (Message data) = true ->
  capture_image_from_server {| now := clock; inbox := (arrival, Message data) :: rest |} =
  ([TriggerCapture], {| now := Qmax clock arrival; inbox := rest |}, Ok (Some data)).
Proof.
  intros Hlt Hresp. rewrite capture_unfold. cbn [inbox now recv_until_response].
  apply Qltb_iff in Hlt. rewrite Hlt. simpl in Hresp.
  destruct (py_get data "type") as [ty|]; [|discriminate].
  rewrite Hresp. reflexivity.
Qed.

Section ResponseFacts.

Context {lib : Libraries}.

(** X12. A response that comes too late for its capture is not lost and
    not recognised as late: the turn times out and retries, and the next
    capture, triggered after the picture was taken, returns that response
    as its own. *)
Theorem late_response_answers_next_capture (clock arrival : Q) (data : json)
        (rest : list (Q * ws_item)) :
  (clock + 5 <= arrival)%Q ->
  (arrival < clock + 5 + 1 + 5)%Q ->
  is_capture_response (Message data) = true ->
  cycle {| now := clock; inbox := (arrival, Message data) :: rest |} =
    (retry_events,
     {| now := clock + 5 + 1; inbox := (arrival, Message data) :: rest |},
     Ok LoopContinue) /\
  capture_image_from_server
    {| now := clock + 5 + 1; inbox := (arrival, Message data) :: rest |} =
    ([TriggerCapture],
     {| now := Qmax (clock + 5 + 1) arrival; inbox := rest |}, Ok (Some data)).
Proof.
  intros Hlate Hnext Hresp. split.
  - rewrite cycle_unfold, capture_unfold. cbn [inbox now recv_until_response].
    apply Qltb_false_iff in Hlate. rewrite Hlate. reflexivity.
  - apply capture_head_response; assumption.
Qed.

Lemma count_capture_first (rest : list event) :
  count is_capture (TriggerCapture :: rest) = S (count is_capture rest).
Proof. reflexivity. Qed.

Lemma far_response_later (d d' : Q) (m : Q * ws_item) :
  (d <= d')%Q -> far_response d m -> far_response d' m.
Proof.
  intros Hd [Hlt H]. split; [Lqa.lra | exact H].
Qed.

(** X14. The run ends at the first frame taken within reach of the goal:
    if the messages to come are capture responses that arrive in time, each
    with a readable frame whose computed distance is not below the
    threshold, followed by one whose computed distance is below it, then the
    run takes one turn per frame, reaches the goal on the last one, sends
    one Stop, and leaves what follows unread. *)
Theorem run_reaches_goal (far : list (Q * ws_item)) :
  forall (clock arrival : Q) (response image_data : json) (distance : pynum)
         (rest : list (Q * ws_item)) (n : nat),
    Forall (far_response (clock + 5)) far ->
    (arrival < clock + 5)%Q ->
    is_capture_response (Message response) = true ->
    frame_of response image_data distance ->
    py_lt_int distance GOAL_THRESHOLD = true ->
    exists evs w',
      main_loop (S (List.length far) + n)
                {| now := clock; inbox := far ++ (arrival, Message response) :: rest |} =
        (evs, w', Ok GoalReached) /\
      inbox w' = rest /\
      count is_capture evs = S (List.length far) /\
      count is_stop evs = 1%nat.
Proof.
  induction far as [|[a item] far IH];
    intros clock arrival response image_data distance rest n Hfar Hlt Hresp Hframe Hnear.
  - cbn [List.length app Nat.add]. rewrite main_loop_step.
    rewrite (cycle_frame _ _ _ _ _ _
               (capture_head_response _ _ _ _ Hlt Hresp) Hframe), Hnear.
    eexists. eexists. split; [reflexivity|]. repeat split.
  - inversion Hfar as [|m l Hm Hrest]; subst.
    destruct Hm as (Ha & resp0 & img0 & d0 & Hitem & Hresp0 & Hframe0 & Hfar0).
    cbn [fst snd] in Ha, Hitem. subst item.
    cbn [List.length app Nat.add]. rewrite main_loop_step.
    pose proof (capture_head_response clock a resp0
                  (far ++ (arrival, Message response) :: rest) Ha Hresp0) as Hcap.
    pose proof (cycle_frame _ _ _ _ _ _ Hcap Hframe0) as Hcy.
    rewrite Hfar0 in Hcy.
    pose proof (Qmax_ge_l clock a) as Hge.
    assert (Hnext : forall k : Q,
               (0 <= k)%Q ->
               exists evs w',
                 main_loop (S (List.length far + n))
                   (advance (advance {| now := Qmax clock a;
                                        inbox := far ++ (arrival, Message response) :: rest |}
                                     k) 1) =
                   (evs, w', Ok GoalReached) /\
                 inbox w' = rest /\
                 count is_capture evs = S (List.length far) /\
                 count is_stop evs = 1%nat).
    { intros k Hk. unfold advance. cbn [now inbox].
      apply (IH _ arrival response image_data distance rest n); try assumption.
      - eapply Forall_impl; [|exact Hrest].
        intro m. apply far_response_later. Lqa.lra.
      - Lqa.lra. }
    destruct (snd (analyze_image img0)).
    + destruct (Hnext 2%Q ltac:(Lqa.lra)) as (evs & w' & Hrun & Hin & Hcapn & Hstop).
      destruct (cycle_shape _ _ _ _ Hcy) as (tail & Hev & Hc & _ & Hnostop & _).
      rewrite Hev in Hcy. rewrite Hcy, Hrun.
      eexists. eexists. split; [reflexivity|].
      split; [assumption|].
      rewrite !count_app, count_capture_first, count_after_capture by reflexivity.
      rewrite Hc, Hnostop, Hcapn, Hstop by discriminate.
      split; reflexivity.
    + destruct (Hnext 1%Q ltac:(Lqa.lra)) as (evs & w' & Hrun & Hin & Hcapn & Hstop).
      destruct (cycle_shape _ _ _ _ Hcy) as (tail & Hev & Hc & _ & Hnostop & _).
      rewrite Hev in Hcy. rewrite Hcy, Hrun.
      eexists. eexists. split; [reflexivity|].
      split; [assumption|].
      rewrite !count_app, count_capture_first, count_after_capture by reflexivity.
      rewrite Hc, Hnostop, Hcapn, Hstop by discriminate.
      split; reflexivity.
Qed.

End ResponseFacts.

(** ** The further properties at work *)

(** [bad_message_is_fatal] on a JSON array, which has no [get]. *)
Lemma bad_message_is_fatal_witness :
  main (lib := Sample.library) 1 {| now := 0; inbox := [(1, Message (JArr []))] |} =
    ([Print "🤖 Autonomous Robot Controller started.";
      Print "🎯 Goal set to: {'x': -35, 'z': -35}";
      SetGoal GOAL_POSITION;
      Print "Goal position sent to simulator.";
      TriggerCapture],
     {| now := Qmax 0 1; inbox := [] |},
     Raise (AttributeError "'list' object has no attribute 'get'")) /\
  AttributeError "'list' object has no attribute 'get'" <> TimeoutError.
Proof.
  apply (bad_message_is_fatal (lib := Sample.library) 0 1 (Message (JArr [])) []
           (AttributeError "'list' object has no attribute 'get'") 0).
  - vm_compute. reflexivity.
  - reflexivity.
Defined.

(** [unreadable_response_is_fatal] on a response without a position, and
    on one whose position has the coordinate x = 1.5e154 and no z: the
    square of x overflows before z is looked up. *)
Lemma unreadable_response_is_fatal_witness :
  (forall n,
      main_loop (lib := Sample.library) (S n)
        {| now := 0;
           inbox := [(1, Message (JObj [("type", JStr "capture_image_response");
                                        ("image", JStr Sample.green_frame)]))] |} =
      ([TriggerCapture], {| now := 1; inbox := [] |}, Raise (KeyError "position"))) /\
  (forall n,
      main_loop (lib := Sample.library) (S n)
        {| now := 0;
           inbox := [(1, Message (JObj [("type", JStr "capture_image_response");
                                        ("image", JStr Sample.green_frame);
                                        ("position",
                                         JObj [("x", JNum (PyFloat Sample.huge))])]))] |} =
      ([TriggerCapture], {| now := 1; inbox := [] |},
       Raise (OverflowError "(34, 'Numerical result out of range')"))).
Proof.
  split.
  - destruct (unreadable_response_is_fatal (lib := Sample.library)
                {| now := 0;
                   inbox := [(1, Message (JObj [("type", JStr "capture_image_response");
                                                ("image", JStr Sample.green_frame)]))] |}
                {| now := 1; inbox := [] |} [TriggerCapture]
                (JObj [("type", JStr "capture_image_response");
                       ("image", JStr Sample.green_frame)]))
      as (e & _ & Hread & Hrun).
    + reflexivity.
    + intros image_data distance (_ & p & Hp & _). vm_compute in Hp. discriminate Hp.
    + vm_compute in Hread. inversion Hread; subst e. exact Hrun.
  - destruct (unreadable_response_is_fatal (lib := Sample.library)
                {| now := 0;
                   inbox := [(1, Message (JObj [("type", JStr "capture_image_response");
                                                ("image", JStr Sample.green_frame);
                                                ("position",
                                                 JObj [("x", JNum (PyFloat Sample.huge))])]))] |}
                {| now := 1; inbox := [] |} [TriggerCapture]
                (JObj [("type", JStr "capture_image_response");
                       ("image", JStr Sample.green_frame);
                       ("position", JObj [("x", JNum (PyFloat Sample.huge))])]))
      as (e & _ & Hread & Hrun).
    + reflexivity.
    + intros image_data distance (_ & p & Hp & Hd).
      vm_compute in Hp. inversion Hp; subst p. vm_compute in Hd. discriminate Hd.
    + vm_compute in Hread. inversion Hread; subst e. exact Hrun.
Defined.

(** [unclassifiable_frame_steps_forward] on a frame taken at (0, 0) whose
    image entry is [null]. *)
Lemma unclassifiable_frame_steps_forward_witness :
  cycle (lib := Sample.library)
    {| now := 0;
       inbox := [(1, Message (JObj [("type", JStr "capture_image_response");
                                    ("image", JNull);
                                    ("position", position_at (PyInt 0) (PyInt 0))]))] |} =
    ([TriggerCapture;
      Print "Error analyzing image: 'NoneType' object has no attribute 'split'"]
     ++ clear_events,
     advance (advance {| now := 1; inbox := [] |} 1) 1, Ok LoopContinue).
Proof.
  destruct (unclassifiable_frame_steps_forward (lib := Sample.library)
              {| now := 0;
                 inbox := [(1, Message (JObj [("type", JStr "capture_image_response");
                                              ("image", JNull);
                                              ("position",
                                               position_at (PyInt 0) (PyInt 0))]))] |}
              {| now := 1; inbox := [] |} [TriggerCapture]
              (JObj [("type", JStr "capture_image_response");
                     ("image", JNull);
                     ("position", position_at (PyInt 0) (PyInt 0))])
              JNull (PyFloat (S754_finite false 6966150266825064 (-47))))
    as (cause & _ & Hcause & Hcycle).
  - reflexivity.
  - split; [reflexivity|]. eexists. split; [reflexivity | vm_compute; reflexivity].
  - vm_compute. reflexivity.
  - exact I.
  - rewrite (Hcause ltac:(discriminate)) in Hcycle. exact Hcycle.
Defined.

(** [stop_ends_the_run] on a run that reaches the goal at once. *)
Lemma stop_ends_the_run_witness :
  (Ok GoalReached = Ok GoalReached ->
   exists before,
     [TriggerCapture] ++ goal_reached_events = before ++ goal_reached_events /\
     count is_stop before = 0%nat) /\
  (Ok GoalReached <> Ok GoalReached ->
   count is_stop ([TriggerCapture] ++ goal_reached_events) = 0%nat).
Proof.
  apply (stop_ends_the_run (lib := Sample.library) 1
           (Sample.world_with Sample.green_frame (-33) (-32))
           ([TriggerCapture] ++ goal_reached_events) {| now := 1; inbox := [] |}
           (Ok GoalReached)).
  vm_compute. reflexivity.
Defined.

(** [turns_are_paced] on two turns in the silent world. *)
Lemma turns_are_paced_witness :
  (List.length (commands (retry_events ++ retry_events)) <= 3 * 2)%nat /\
  (Ok StillRunning = Ok StillRunning ->
   now Sample.silent_world + inject_Z (Z.of_nat 2) <= 0 + 5 + 1 + 5 + 1)%Q.
Proof.
  apply (turns_are_paced (lib := Sample.library) 2 Sample.silent_world
           (retry_events ++ retry_events)
           {| now := 0 + 5 + 1 + 5 + 1; inbox := [] |} (Ok StillRunning)).
  reflexivity.
Defined.

(** [run_moves_forward] on one turn in the busy world. *)
Lemma run_moves_forward_witness :
  (now Sample.busy_world <= 12 + 2 + 1)%Q /\
  exists received, inbox Sample.busy_world = received ++ [].
Proof.
  apply (run_moves_forward (lib := Sample.library) 1 Sample.busy_world
           ([TriggerCapture] ++ obstacle_events)
           {| now := 12 + 2 + 1; inbox := [] |} (Ok StillRunning)).
  vm_compute. reflexivity.
Defined.

(** [header_is_ignored] on two headers for the green frame. *)
Lemma header_is_ignored_witness :
  analyze_image (lib := Sample.library)
    (JStr ("data:image/x-portable-pixmap;base64" ++
           String "," "UDYKMiAyCjI1NQoA/wAA/wAA/wAA/wA=")) =
  analyze_image (lib := Sample.library)
    (JStr ("anything" ++ String "," "UDYKMiAyCjI1NQoA/wAA/wAA/wAA/wA=")).
Proof.
  apply (header_is_ignored (lib := Sample.library)); reflexivity.
Defined.

(** [green_percentage_range] on the green frame. *)
Lemma green_percentage_range_witness :
  exists q,
    green_percentage Sample.green_bgr Sample.green_hsv = NpFinite q /\
    (0 <= q <= 100)%Q.
Proof.
  apply (green_percentage_range Sample.green_bgr Sample.green_hsv).
  - reflexivity.
  - vm_compute. lia.
Defined.

(** [late_response_answers_next_capture] on a response that arrives at 5.5. *)
Lemma late_response_answers_next_capture_witness :
  cycle (lib := Sample.library)
    {| now := 0;
       inbox := [(5.5, Message (Sample.capture_response Sample.green_frame 0 0))] |} =
    (retry_events,
     {| now := 0 + 5 + 1;
        inbox := [(5.5, Message (Sample.capture_response Sample.green_frame 0 0))] |},
     Ok LoopContinue) /\
  capture_image_from_server
    {| now := 0 + 5 + 1;
       inbox := [(5.5, Message (Sample.capture_response Sample.green_frame 0 0))] |} =
    ([TriggerCapture], {| now := Qmax (0 + 5 + 1) 5.5; inbox := [] |},
     Ok (Some (Sample.capture_response Sample.green_frame 0 0))).
Proof.
  apply (late_response_answers_next_capture (lib := Sample.library) 0 5.5
           (Sample.capture_response Sample.green_frame 0 0) []).
  - vm_compute. discriminate.
  - vm_compute. reflexivity.
  - reflexivity.
Defined.

(** [run_reaches_goal] on a frame taken at (0, 0) followed by one taken at
    (-33, -32). *)
Lemma run_reaches_goal_witness :
  exists evs w',
    main_loop (lib := Sample.library) (S (List.length
                 [(1, Message (Sample.capture_response Sample.gray_frame 0 0))]) + 0)
      {| now := 0;
         inbox := [(1, Message (Sample.capture_response Sample.gray_frame 0 0))] ++
                  (2, Message (Sample.capture_response Sample.gray_frame (-33) (-32)))
                  :: [] |} =
      (evs, w', Ok GoalReached) /\
    inbox w' = [] /\
    count is_capture evs =
      S (List.length [(1, Message (Sample.capture_response Sample.gray_frame 0 0))]) /\
    count is_stop evs = 1%nat.
Proof.
  apply (run_reaches_goal (lib := Sample.library)
           [(1, Message (Sample.capture_response Sample.gray_frame 0 0))]
           0 2 (Sample.capture_response Sample.gray_frame (-33) (-32))
           (JStr Sample.gray_frame)
           (PyFloat (b64_sqrt (b64_of_Z (squared_distance (-33) (-32))))) [] 0).
  - constructor; [|constructor]. split; [vm_compute; reflexivity|].
    exists (Sample.capture_response Sample.gray_frame 0 0), (JStr Sample.gray_frame),
           (PyFloat (S754_finite false 6966150266825064 (-47))).
    split; [reflexivity|]. split; [reflexivity|].
    split; [|vm_compute; reflexivity].
    split; [reflexivity|]. eexists. split; [reflexivity | vm_compute; reflexivity].
  - vm_compute. reflexivity.
  - reflexivity.
  - split; [reflexivity|]. eexists. split; [reflexivity | vm_compute; reflexivity].
  - vm_compute. reflexivity.
Defined.

(** [verdict_ignores_position] on a frame with one green pixel in either
    corner. *)
Lemma verdict_ignores_position_witness :
  verdict {| shape0 := 1; shape1 := 2; pixels := [] |}
          {| shape0 := 1; shape1 := 2;
             pixels := [{| ch0 := 60; ch1 := 255; ch2 := 255 |};
                        {| ch0 := 0; ch1 := 0; ch2 := 0 |}] |} =
  verdict {| shape0 := 2; shape1 := 1; pixels := [] |}
          {| shape0 := 2; shape1 := 1;
             pixels := [{| ch0 := 0; ch1 := 0; ch2 := 0 |};
                        {| ch0 := 60; ch1 := 255; ch2 := 255 |}] |}.
Proof.
  apply (verdict_ignores_position
           {| shape0 := 1; shape1 := 2; pixels := [] |}
           {| shape0 := 1; shape1 := 2;
              pixels := [{| ch0 := 60; ch1 := 255; ch2 := 255 |};
                         {| ch0 := 0; ch1 := 0; ch2 := 0 |}] |}
           {| shape0 := 2; shape1 := 1; pixels := [] |}
           {| shape0 := 2; shape1 := 1;
              pixels := [{| ch0 := 0; ch1 := 0; ch2 := 0 |};
                         {| ch0 := 60; ch1 := 255; ch2 := 255 |}] |}).
  - apply perm_swap.
  - reflexivity.
Defined.
